(** * JsonToDartConverter: the JSON-to-Dart class generator

    A shallow embedding of [src/components/JsonToDartConverter.tsx]
    (the functions [generateFieldType], [capitalizeFirst],
    [generateNestedClasses], [generateClassContent], [generateDartClass]
    and the handler [convertJsonToDart]) together with the properties of
    the generator that are stated about it.

    Conventions of the embedding:
    - a JavaScript string is a [string]; the characters are the code
      units of ASCII text (the case mapping below is the ASCII one);
    - a JavaScript number is an IEEE 754 value ([spec_float]);
    - a thrown [TypeError] is the result [None] of the error monad
      [Throws]; the only built-in of the generator that can throw is
      [Object.entries] / [Object.keys] applied to [null]. *)

From Stdlib Require Import String Ascii List ZArith Lia Bool Arith.
From Stdlib Require Import DecimalString.
From Stdlib Require Import Floats.SpecFloat.
Import ListNotations.
Open Scope string_scope.

(** ** Values produced by [JSON.parse] *)

(** [JObject fields] lists the own enumerable properties of the object in
    the order in which [Object.entries] enumerates them. *)
#[local] Unset Elimination Schemes.
Inductive JsonValue : Type :=
| JNull
| JBool (b : bool)
| JNumber (x : spec_float)
| JString (s : string)
| JArray (items : list JsonValue)
| JObject (fields : list (string * JsonValue)).
#[local] Set Elimination Schemes.

(** ** The error monad: a computation that may throw *)

Definition Throws (A : Type) : Type := option A.

Definition bind {A B : Type} (c : Throws A) (k : A -> Throws B) : Throws B :=
  match c with
  | Some a => k a
  | None => None
  end.

Notation "x <- c ;; k" := (bind c (fun x => k))
  (at level 61, c at next level, right associativity).

(** ** The JavaScript built-ins the component uses *)

Module JS.

Definition nl : string := String (ascii_of_nat 10) EmptyString.

(** The result of [typeof] on a parsed value. *)
Inductive TypeTag : Type := TString | TNumber | TBoolean | TObject.

Definition typeof (v : JsonValue) : TypeTag :=
  match v with
  | JNull => TObject
  | JBool _ => TBoolean
  | JNumber _ => TNumber
  | JString _ => TString
  | JArray _ => TObject
  | JObject _ => TObject
  end.

Definition tag_eqb (a b : TypeTag) : bool :=
  match a, b with
  | TString, TString | TNumber, TNumber
  | TBoolean, TBoolean | TObject, TObject => true
  | _, _ => false
  end.

(** [value === null] *)
Definition isNull (v : JsonValue) : bool :=
  match v with JNull => true | _ => false end.

Definition Array_isArray (v : JsonValue) : bool :=
  match v with JArray _ => true | _ => false end.

(** [value.length] of an array (used under [Array.isArray] only). *)
Definition array_length (v : JsonValue) : nat :=
  match v with JArray items => List.length items | _ => 0 end.

(** [Number.isInteger]: finite and without fractional part.  A finite
    value is [m * 2^e]. *)
Definition Number_isInteger (x : spec_float) : bool :=
  match x with
  | S754_zero _ => true
  | S754_infinity _ => false
  | S754_nan => false
  | S754_finite _ m e =>
      if (0 <=? e)%Z then true
      else (Z.pos m mod 2 ^ (- e) =? 0)%Z
  end.

(** [str.charAt(0)]: the first character as a string, or the empty
    string. *)
Definition charAt0 (str : string) : string :=
  match str with
  | EmptyString => EmptyString
  | String c _ => String c EmptyString
  end.

(** [str.slice(1)] *)
Definition slice1 (str : string) : string :=
  match str with
  | EmptyString => EmptyString
  | String _ rest => rest
  end.

Definition upper_char (c : ascii) : ascii :=
  let n := nat_of_ascii c in
  if (97 <=? n)%nat && (n <=? 122)%nat then ascii_of_nat (n - 32) else c.

Fixpoint toUpperCase (str : string) : string :=
  match str with
  | EmptyString => EmptyString
  | String c rest => String (upper_char c) (toUpperCase rest)
  end.

(** [key.replace(/s$/, '')]: one trailing ['s'] is removed. *)
Fixpoint replace_trailing_s (key : string) : string :=
  match key with
  | EmptyString => EmptyString
  | String c EmptyString =>
      if Ascii.eqb c "s"%char then EmptyString else key
  | String c rest => String c (replace_trailing_s rest)
  end.

(** [String(i)] for an array index. *)
Definition index_key (i : nat) : string :=
  NilEmpty.string_of_uint (Nat.to_uint i).

Fixpoint indexed {A : Type} (i : nat) (l : list A) : list (string * A) :=
  match l with
  | [] => []
  | x :: rest => (index_key i, x) :: indexed (S i) rest
  end.

Fixpoint chars (s : string) : list JsonValue :=
  match s with
  | EmptyString => []
  | String c rest => JString (String c EmptyString) :: chars rest
  end.

(** [Object.entries(obj)]: throws on [null]; a number or a boolean has
    no own property; a string and an array have their indices. *)
Definition Object_entries (obj : JsonValue)
  : Throws (list (string * JsonValue)) :=
  match obj with
  | JNull => None
  | JBool _ => Some []
  | JNumber _ => Some []
  | JString s => Some (indexed 0 (chars s))
  | JArray items => Some (indexed 0 items)
  | JObject fields => Some fields
  end.

Definition Object_keys (obj : JsonValue) : Throws (list string) :=
  es <- Object_entries obj ;; Some (map fst es).

(** White space removed by [trim], among the ASCII code units. *)
Definition is_space (c : ascii) : bool :=
  let n := nat_of_ascii c in
  ((9 <=? n)%nat && (n <=? 13)%nat) || (n =? 32)%nat.

(** [!str.trim()]: the string is empty once trimmed. *)
Fixpoint trim_is_empty (str : string) : bool :=
  match str with
  | EmptyString => true
  | String c rest => is_space c && trim_is_empty rest
  end.

End JS.
Import JS.

(** ** for-of loops over entries *)

Section ForOf.
Variable body : string -> string -> JsonValue -> Throws string.

(** [for (const [key, value] of entries) acc = body acc key value] *)
Fixpoint forOf (acc : string) (entries : list (string * JsonValue))
  : Throws string :=
  match entries with
  | [] => Some acc
  | (key, value) :: rest => acc' <- body acc key value ;; forOf acc' rest
  end.

Fixpoint forItems (i : nat) (acc : string) (items : list JsonValue)
  : Throws string :=
  match items with
  | [] => Some acc
  | value :: rest =>
      acc' <- body acc (index_key i) value ;; forItems (S i) acc' rest
  end.
End ForOf.

(** ** The generator *)

(** The two tests shared by the three loops of the component. *)

(** [typeof value === 'object' && value !== null && !Array.isArray(value)] *)
Definition isNestedObject (value : JsonValue) : bool :=
  tag_eqb (typeof value) TObject && negb (isNull value)
  && negb (Array_isArray value).

(** [value[0]], read only once [value] is known to be a non-empty array
    (elsewhere the result is not used). *)
Definition firstOf (value : JsonValue) : JsonValue :=
  match value with
  | JArray (first :: _) => first
  | _ => JNull
  end.

(** [Array.isArray(value) && value.length > 0
     && typeof value[0] === 'object'] *)
Definition isObjectList (value : JsonValue) : bool :=
  Array_isArray value && (0 <? array_length value)%nat
  && tag_eqb (typeof (firstOf value)) TObject.

Definition capitalizeFirst (str : string) : string :=
  toUpperCase (charAt0 str) ++ slice1 str.

Fixpoint generateFieldType (value : JsonValue) (key : string) : string :=
  if isNull value then "dynamic"
  else if tag_eqb (typeof value) TString then "String"
  else if tag_eqb (typeof value) TNumber then
    match value with
    | JNumber x => if Number_isInteger x then "int" else "double"
    | _ => "dynamic"
    end
  else if tag_eqb (typeof value) TBoolean then "bool"
  else
    match value with
    | JArray [] => "List<dynamic>"
    | JArray (firstItem :: _) =>
        if tag_eqb (typeof firstItem) TObject && negb (isNull firstItem) then
          let itemClassName := capitalizeFirst (replace_trailing_s key) in
          "List<" ++ itemClassName ++ ">"
        else "List<" ++ generateFieldType firstItem key ++ ">"
    | _ =>
        if tag_eqb (typeof value) TObject then capitalizeFirst key
        else "dynamic"
    end.

(** The bodies of the three loops of [generateClassContent]. *)

Definition fieldLine (key : string) (value : JsonValue) : string :=
  let fieldType := generateFieldType value key in
  "  final " ++ fieldType ++ "? " ++ key ++ ";" ++ nl.

Definition ctorLine (field : string) : string :=
  "    this." ++ field ++ "," ++ nl.

Definition fromJsonLine (key : string) (value : JsonValue) : string :=
  if isNestedObject value then
    let nestedClassName := capitalizeFirst key in
    "      " ++ key ++ ": json['" ++ key ++ "'] != null ? "
      ++ nestedClassName ++ ".fromJson(json['" ++ key ++ "']) : null," ++ nl
  else if isObjectList value then
    let itemClassName := capitalizeFirst (replace_trailing_s key) in
    "      " ++ key ++ ": json['" ++ key ++ "'] != null ? (json['" ++ key
      ++ "'] as List).map((item) => " ++ itemClassName
      ++ ".fromJson(item)).toList() : null," ++ nl
  else
    "      " ++ key ++ ": json['" ++ key ++ "']," ++ nl.

Definition toJsonLine (key : string) (value : JsonValue) : string :=
  if isNestedObject value then
    "      '" ++ key ++ "': " ++ key ++ "?.toJson()," ++ nl
  else if isObjectList value then
    "      '" ++ key ++ "': " ++ key
      ++ "?.map((item) => item.toJson()).toList()," ++ nl
  else
    "      '" ++ key ++ "': " ++ key ++ "," ++ nl.

Definition generateClassContent (obj : JsonValue) (className : string)
  : Throws string :=
  let content := EmptyString in
  (* Fields *)
  es <- Object_entries obj ;;
  let content :=
    fold_left (fun content kv => content ++ fieldLine (fst kv) (snd kv))
              es content in
  let content := content ++ nl in
  (* Constructor *)
  fields <- Object_keys obj ;;
  let content := content ++ "  " ++ className ++ "({" ++ nl in
  let content :=
    fold_left (fun content field => content ++ ctorLine field)
              fields content in
  let content := content ++ "  });" ++ nl ++ nl in
  (* fromJson method *)
  let content := content ++ "  factory " ++ className
                   ++ ".fromJson(Map<String, dynamic> json) {" ++ nl in
  let content := content ++ "    return " ++ className ++ "(" ++ nl in
  es <- Object_entries obj ;;
  let content :=
    fold_left (fun content kv => content ++ fromJsonLine (fst kv) (snd kv))
              es content in
  let content := content ++ "    );" ++ nl in
  let content := content ++ "  }" ++ nl ++ nl in
  (* toJson method *)
  let content := content ++ "  Map<String, dynamic> toJson() {" ++ nl in
  let content := content ++ "    return {" ++ nl in
  es <- Object_entries obj ;;
  let content :=
    fold_left (fun content kv => content ++ toJsonLine (fst kv) (snd kv))
              es content in
  let content := content ++ "    };" ++ nl in
  let content := content ++ "  }" ++ nl in
  Some content.

(** The body of the loop of [generateNestedClasses]; [rec] is the
    function itself. *)
Definition nestedStep (rec : JsonValue -> string -> Throws string)
  (nestedClasses key : string) (value : JsonValue) : Throws string :=
  if isNestedObject value then
    let nestedClassName := capitalizeFirst key in
    nested <- rec value nestedClassName ;;
    let nestedClasses := nestedClasses ++ nested in
    let nestedClasses :=
      nestedClasses ++ nl ++ "class " ++ nestedClassName ++ " {" ++ nl in
    content <- generateClassContent value nestedClassName ;;
    let nestedClasses := nestedClasses ++ content in
    Some (nestedClasses ++ "}" ++ nl)
  else
    match value with
    | JArray (first :: _) =>
        if tag_eqb (typeof first) TObject then
          let itemClassName := capitalizeFirst (replace_trailing_s key) in
          nested <- rec first itemClassName ;;
          let nestedClasses := nestedClasses ++ nested in
          let nestedClasses :=
            nestedClasses ++ nl ++ "class " ++ itemClassName ++ " {" ++ nl in
          content <- generateClassContent first itemClassName ;;
          let nestedClasses := nestedClasses ++ content in
          Some (nestedClasses ++ "}" ++ nl)
        else Some nestedClasses
    | _ => Some nestedClasses
    end.

(** The loop over [Object.entries(obj)] is written by cases on [obj], so
    that the recursive calls are on values inside [obj]; the entries of a
    string are one-character strings, for which the body adds nothing.
    [generateNestedClasses_unfold] below gives the function in the form of
    the source. *)
Fixpoint generateNestedClasses (obj : JsonValue) (className : string)
  {struct obj} : Throws string :=
  match obj with
  | JNull => None
  | JBool _ => Some EmptyString
  | JNumber _ => Some EmptyString
  | JString _ => Some EmptyString
  | JArray items =>
      forItems (nestedStep generateNestedClasses) 0 EmptyString items
  | JObject fields =>
      forOf (nestedStep generateNestedClasses) EmptyString fields
  end.

Definition generateDartClass (json : JsonValue) (className : string)
  : Throws string :=
  nestedClasses <- generateNestedClasses json className ;;
  let dartClass := nestedClasses in
  let dartClass := dartClass ++ nl ++ "class " ++ className ++ " {" ++ nl in
  content <- generateClassContent json className ;;
  let dartClass := dartClass ++ content in
  let dartClass := dartClass ++ "}" ++ nl in
  Some dartClass.

(** ** The handler of the component *)

Module Component.

Inductive ToastVariant : Type := variant_default | variant_destructive.

Record Toast : Type := {
  title : string;
  description : string;
  variant : ToastVariant
}.

(** The state of the component: the four [useState] cells, and the toasts
    shown so far (the most recent first). *)
Record State : Type := {
  jsonInput : string;
  className : string;
  dartOutput : string;
  isConverting : bool;
  toasts : list Toast
}.

Definition setDartOutput (out : string) (st : State) : State :=
  {| jsonInput := jsonInput st; className := className st;
     dartOutput := out; isConverting := isConverting st;
     toasts := toasts st |}.

Definition setIsConverting (b : bool) (st : State) : State :=
  {| jsonInput := jsonInput st; className := className st;
     dartOutput := dartOutput st; isConverting := b;
     toasts := toasts st |}.

Definition toast (t : Toast) (st : State) : State :=
  {| jsonInput := jsonInput st; className := className st;
     dartOutput := dartOutput st; isConverting := isConverting st;
     toasts := t :: toasts st |}.

Definition emptyInputToast : Toast :=
  {| title := "Error";
     description := "Please enter a valid JSON string";
     variant := variant_destructive |}.

Definition successToast : Toast :=
  {| title := "Success";
     description := "JSON converted to Dart model successfully!";
     variant := variant_default |}.

Definition invalidJsonToast : Toast :=
  {| title := "Error";
     description := "Invalid JSON format. Please check your input.";
     variant := variant_destructive |}.

(** [JSON_parse] is the built-in [JSON.parse]: [None] when it throws a
    [SyntaxError].  The [try] block fails when the parser or the
    generator throws; [catch] then shows the error toast, and [finally]
    clears the flag. *)
Definition convertJsonToDart (JSON_parse : string -> Throws JsonValue)
  (st : State) : State :=
  if trim_is_empty (jsonInput st) then toast emptyInputToast st
  else
    let st := setIsConverting true st in
    let st :=
      match
        parsedJson <- JSON_parse (jsonInput st) ;;
        generateDartClass parsedJson (className st)
      with
      | Some dartClass => toast successToast (setDartOutput dartClass st)
      | None => toast invalidJsonToast st
      end in
    setIsConverting false st.

End Component.

(** ** The schema behind the text *)

(** The type of a field, before it is rendered. *)
Inductive TypeExpr : Type :=
| Scalar (name : string)
| ListOf (t : TypeExpr)
| NamedClass (name : string)
| Dynamic.

Fixpoint renderType (t : TypeExpr) : string :=
  match t with
  | Scalar name => name
  | ListOf t => "List<" ++ renderType t ++ ">"
  | NamedClass name => name
  | Dynamic => "dynamic"
  end.

(** [generateFieldType], branch by branch, with the type kept as a tree
    ([generateFieldType_render] relates the two). *)
Fixpoint typeOf (value : JsonValue) (key : string) : TypeExpr :=
  if isNull value then Dynamic
  else if tag_eqb (typeof value) TString then Scalar "String"
  else if tag_eqb (typeof value) TNumber then
    match value with
    | JNumber x => if Number_isInteger x then Scalar "int" else Scalar "double"
    | _ => Dynamic
    end
  else if tag_eqb (typeof value) TBoolean then Scalar "bool"
  else
    match value with
    | JArray [] => ListOf Dynamic
    | JArray (firstItem :: _) =>
        if tag_eqb (typeof firstItem) TObject && negb (isNull firstItem) then
          ListOf (NamedClass (capitalizeFirst (replace_trailing_s key)))
        else ListOf (typeOf firstItem key)
    | _ =>
        if tag_eqb (typeof value) TObject then NamedClass (capitalizeFirst key)
        else Dynamic
    end.

(** The class a type refers to, if any. *)
Fixpoint namedClassOf (t : TypeExpr) : option string :=
  match t with
  | NamedClass name => Some name
  | ListOf t => namedClassOf t
  | Scalar _ => None
  | Dynamic => None
  end.

(** A value of one of the scalar types of JSON. *)
Definition isScalar (value : JsonValue) : bool :=
  match value with
  | JBool _ => true
  | JNumber _ => true
  | JString _ => true
  | _ => false
  end.

(** One emitted class: its name, the value it is generated from, and how
    deep below the root that value is (the root is at level 0). *)
Record ClassSpec : Type := {
  specName : string;
  sourceObject : JsonValue;
  level : nat
}.

(** The text of one class, as [generateNestedClasses] and
    [generateDartClass] append it. *)
Definition classText (c : ClassSpec) : Throws string :=
  content <- generateClassContent (sourceObject c) (specName c) ;;
  Some (nl ++ "class " ++ specName c ++ " {" ++ nl ++ content ++ "}" ++ nl).

Fixpoint mapM {A B : Type} (f : A -> Throws B) (l : list A)
  : Throws (list B) :=
  match l with
  | [] => Some []
  | a :: rest => b <- f a ;; bs <- mapM f rest ;; Some (b :: bs)
  end.

Definition joinTexts (l : list string) : string :=
  fold_right append EmptyString l.

(** What one iteration of the loop of [generateNestedClasses] appends. *)
Definition nestedEntry (key : string) (value : JsonValue) : Throws string :=
  nestedStep generateNestedClasses EmptyString key value.

Section FlatEntries.
Variable step : string -> JsonValue -> list ClassSpec.

Fixpoint flatFields (entries : list (string * JsonValue)) : list ClassSpec :=
  match entries with
  | [] => []
  | (key, value) :: rest => step key value ++ flatFields rest
  end.

Fixpoint flatItems (i : nat) (items : list JsonValue) : list ClassSpec :=
  match items with
  | [] => []
  | value :: rest => step (index_key i) value ++ flatItems (S i) rest
  end.
End FlatEntries.

(** The classes one iteration of the loop of [generateNestedClasses]
    emits for the field [key]: those of the nested value, then the class
    of the nested value itself. *)
Definition collectStep (rec : nat -> JsonValue -> list ClassSpec)
  (lvl : nat) (key : string) (value : JsonValue) : list ClassSpec :=
  if isNestedObject value then
    rec (S lvl) value
      ++ [ {| specName := capitalizeFirst key; sourceObject := value;
              level := lvl |} ]
  else
    match value with
    | JArray (first :: _) =>
        if tag_eqb (typeof first) TObject then
          rec (S lvl) first
            ++ [ {| specName := capitalizeFirst (replace_trailing_s key);
                    sourceObject := first; level := lvl |} ]
        else []
    | _ => []
    end.

(** The classes [generateNestedClasses obj] emits, in the order of the
    text; the fields of [obj] are at level [lvl]. *)
Fixpoint collectNested (lvl : nat) (obj : JsonValue) {struct obj}
  : list ClassSpec :=
  match obj with
  | JArray items => flatItems (collectStep collectNested lvl) 0 items
  | JObject fields => flatFields (collectStep collectNested lvl) fields
  | _ => []
  end.

(** The classes of the whole output: the nested ones, then the root. *)
Definition emittedClasses (json : JsonValue) (className : string)
  : list ClassSpec :=
  collectNested 1 json
    ++ [ {| specName := className; sourceObject := json; level := 0 |} ].

(** How many of the classes [before] are named [name]. *)
Definition definitionsOf (name : string) (before : list ClassSpec) : nat :=
  List.length (filter (fun d => String.eqb (specName d) name) before).

(** The four parts of the text of a class body. *)

Definition fieldsSection (es : list (string * JsonValue)) : string :=
  joinTexts (map (fun kv => fieldLine (fst kv) (snd kv)) es) ++ nl.

Definition constructorSection (className : string) (fields : list string)
  : string :=
  "  " ++ className ++ "({" ++ nl
    ++ joinTexts (map ctorLine fields) ++ "  });" ++ nl ++ nl.

Definition fromJsonSection (className : string) (lines : list string)
  : string :=
  "  factory " ++ className ++ ".fromJson(Map<String, dynamic> json) {" ++ nl
    ++ "    return " ++ className ++ "(" ++ nl
    ++ joinTexts lines ++ "    );" ++ nl ++ "  }" ++ nl ++ nl.

Definition toJsonSection (lines : list string) : string :=
  "  Map<String, dynamic> toJson() {" ++ nl ++ "    return {" ++ nl
    ++ joinTexts lines ++ "    };" ++ nl ++ "  }" ++ nl.

(** The line of the deserializer that assigns [key] from the raw value,
    and the line of the serializer that writes [key]. *)
Definition rawAssignLine (key : string) : string :=
  "      " ++ key ++ ": json['" ++ key ++ "']," ++ nl.

Definition rawWriteLine (key : string) : string :=
  "      '" ++ key ++ "': " ++ key ++ "," ++ nl.

(** Lines of text, each ended by a line feed. *)
Definition unlines (l : list string) : string :=
  joinTexts (map (fun s => s ++ nl) l).

(** ** Sample values *)

(** The binary64 values 1, 5 and 5.5. *)
Definition num_1 : spec_float := S754_finite false 4503599627370496 (-52).
Definition num_2 : spec_float := S754_finite false 4503599627370496 (-51).
Definition num_5 : spec_float := S754_finite false 5629499534213120 (-50).
Definition num_5_5 : spec_float := S754_finite false 6192449487634432 (-50).

(** The objects used as examples below. *)

(** [{"a": [null]}] *)
Definition sample_null_item : JsonValue :=
  JObject [("a", JArray [JNull])].

(** [{"a": [[1, 2]]}] *)
Definition sample_matrix : JsonValue :=
  JObject [("a", JArray [JArray [JNumber num_1; JNumber num_2]])].

(** [{"address": {}, "Address": {}}] *)
Definition sample_siblings : JsonValue :=
  JObject [("address", JObject []); ("Address", JObject [])].

(** [{"a": {}, "b": {"c": {}}}] *)
Definition sample_two_branches : JsonValue :=
  JObject [("a", JObject []); ("b", JObject [("c", JObject [])])].

(** [{"items": [{"b": 1}]}] *)
Definition sample_items : JsonValue :=
  JObject [("items", JArray [JObject [("b", JNumber num_1)]])].

(** [{"": 1}] *)
Definition sample_empty_key : JsonValue :=
  JObject [(EmptyString, JNumber num_1)].

(** [{"a": 5, "b": "x", "c": true}] *)
Definition sample_scalars : JsonValue :=
  JObject [("a", JNumber num_5); ("b", JString "x"); ("c", JBool true)].

(** A stand-in for [JSON.parse] on the examples: it accepts the text
    of the empty object and throws on every other text. *)
Definition parse_empty_object (text : string) : Throws JsonValue :=
  if String.eqb text "{}" then Some (JObject []) else None.

(** The component before the first conversion, with [{invalid] typed in
    and an earlier output on display. *)
Definition state_invalid_input : Component.State :=
  {| Component.jsonInput := "{invalid";
     Component.className := "X";
     Component.dartOutput := "class Earlier {}";
     Component.isConverting := false;
     Component.toasts := [] |}.

(** ** Statements about the emitted classes *)

(** Every class named by the type of a field of an emitted class is
    defined before that class, [count] saying how many times. *)
Definition NamedClassesDefinedEarlier (count : nat -> Prop)
  (json : JsonValue) (className : string) : Prop :=
  forall before c after es key value name,
    emittedClasses json className = (before ++ c :: after)%list ->
    Object_entries (sourceObject c) = Some es ->
    In (key, value) es ->
    namedClassOf (typeOf value key) = Some name ->
    count (definitionsOf name before).

(** The first class of the output is at least as deep as every other. *)
Definition DeepestClassFirst (json : JsonValue) (className : string) : Prop :=
  forall first rest c,
    emittedClasses json className = first :: rest ->
    In c rest -> level c <= level first.

(** The classes nested in an emitted class come just before it. *)
Definition DescendantsPrecede (json : JsonValue) (className : string) : Prop :=
  forall before c after,
    emittedClasses json className = (before ++ c :: after)%list ->
    exists before',
      before = (before' ++ collectNested (S (level c)) (sourceObject c))%list.

(** The collector adds nothing for a field whose value is an array that
    starts with an array or a scalar. *)
Definition SkipsArraysOfArraysAndScalars : Prop :=
  forall key first rest,
    Array_isArray first || isScalar first = true ->
    nestedEntry key (JArray (first :: rest)) = Some EmptyString.

(** The type of an array that starts with an array or a scalar is the
    list of the type of its first element. *)
Definition ListOfFirstElementType : Prop :=
  forall key first rest,
    Array_isArray first || isScalar first = true ->
    generateFieldType (JArray (first :: rest)) key
    = "List<" ++ generateFieldType first key ++ ">".

(** Generation returns a text for a parsed value. *)
Definition GenerationReturns (json : JsonValue) (className : string) : Prop :=
  exists out, generateDartClass json className = Some out.

(** ** The other handlers of the component *)

Module Actions.
Import Component.

(** [setJsonInput] and [setClassName], the setters of the two inputs. *)
Definition setJsonInput (value : string) (st : State) : State :=
  {| jsonInput := value; className := className st;
     dartOutput := dartOutput st; isConverting := isConverting st;
     toasts := toasts st |}.

Definition setClassName (value : string) (st : State) : State :=
  {| jsonInput := jsonInput st; className := value;
     dartOutput := dartOutput st; isConverting := isConverting st;
     toasts := toasts st |}.

(** The state of the first render: the arguments of the four [useState]
    calls, and no toast. *)
Definition initialState : State :=
  {| jsonInput := EmptyString; className := "MyModel";
     dartOutput := EmptyString; isConverting := false; toasts := [] |}.

Definition noCodeToast : Toast :=
  {| title := "Error";
     description := "No Dart code to copy";
     variant := variant_destructive |}.

Definition copiedToast : Toast :=
  {| title := "Copied!";
     description := "Dart code copied to clipboard";
     variant := variant_default |}.

Definition copyFailedToast : Toast :=
  {| title := "Error";
     description := "Failed to copy to clipboard";
     variant := variant_destructive |}.

(** [!str] for a string: only the empty string is falsy. *)
Definition not_string (str : string) : bool :=
  match str with
  | EmptyString => true
  | String _ _ => false
  end.

(** [writeText] is [navigator.clipboard.writeText]: from the text and the
    content of the clipboard, the new content, or [None] when the promise
    is rejected.  The handler is run to the end of its promise; the
    result is the clipboard and the state. *)
Definition copyToClipboard (writeText : string -> string -> Throws string)
  (clipboard : string) (st : State) : string * State :=
  if not_string (dartOutput st) then (clipboard, toast noCodeToast st)
  else
    match writeText (dartOutput st) clipboard with
    | Some clipboard' => (clipboard', toast copiedToast st)
    | None => (clipboard, toast copyFailedToast st)
    end.

Definition clearAll (st : State) : State :=
  let st := setJsonInput EmptyString st in
  let st := setDartOutput EmptyString st in
  setClassName "MyModel" st.

(** What the page lets the user do: the [onChange] of the two inputs and
    the [onClick] of the three buttons. *)
Inductive Event : Type :=
| ChangeClassName (value : string)
| ChangeJsonInput (value : string)
| ClickConvert
| ClickClear
| ClickCopy.

Definition handle (JSON_parse : string -> Throws JsonValue)
  (writeText : string -> string -> Throws string)
  (world : string * State) (e : Event) : string * State :=
  let (clipboard, st) := world in
  match e with
  | ChangeClassName value => (clipboard, setClassName value st)
  | ChangeJsonInput value => (clipboard, setJsonInput value st)
  | ClickConvert => (clipboard, convertJsonToDart JSON_parse st)
  | ClickClear => (clipboard, clearAll st)
  | ClickCopy => copyToClipboard writeText clipboard st
  end.

(** A session: the events handled one after the other, from the first
    render. *)
Definition session (JSON_parse : string -> Throws JsonValue)
  (writeText : string -> string -> Throws string)
  (clipboard : string) (events : list Event) : string * State :=
  fold_left (handle JSON_parse writeText) events (clipboard, initialState).

End Actions.

(** ** Further notions on values *)

(** No array of the value starts with [null]. *)
Fixpoint nullHeadFree (v : JsonValue) : bool :=
  match v with
  | JArray items =>
      match items with
      | JNull :: _ => false
      | _ => forallb nullHeadFree items
      end
  | JObject fields => forallb (fun kv => nullHeadFree (snd kv)) fields
  | _ => true
  end.

(** A field value for which none of the loops takes the branch of a
    nested class. *)
Definition isFlatField (value : JsonValue) : bool :=
  negb (isNestedObject value) && negb (isObjectList value).

(** Two values that are equal, or two arrays with the same first
    element. *)
Definition sameFirst (v v' : JsonValue) : Prop :=
  v = v'
  \/ exists first rest rest',
       v = JArray (first :: rest) /\ v' = JArray (first :: rest').

Definition sameFirstFields (fields fields' : list (string * JsonValue))
  : Prop :=
  Forall2 (fun kv kv' => fst kv = fst kv' /\ sameFirst (snd kv) (snd kv'))
          fields fields'.

(** A stand-in for [JSON.parse] that accepts the text [null] only. *)
Definition parse_null_literal (text : string) : Throws JsonValue :=
  if String.eqb text "null" then Some JNull else None.

(** A clipboard that accepts every text, and one that rejects every
    write. *)
Definition clipboard_accepts (text clipboard : string) : Throws string :=
  Some text.

Definition clipboard_rejects (text clipboard : string) : Throws string :=
  None.

(** The component with the given text typed in. *)
Definition state_with_input (text : string) : Component.State :=
  Actions.setJsonInput text Actions.initialState.

(** [{"tags": ["a", "b"], "n": 1}] and [{"tags": ["a"], "n": 1}] *)
Definition sample_long_list : JsonValue :=
  JObject [("tags", JArray [JString "a"; JString "b"]); ("n", JNumber num_1)].

Definition sample_short_list : JsonValue :=
  JObject [("tags", JArray [JString "a"]); ("n", JNumber num_1)].

(** A text whose characters are all ASCII, the texts on which the case
    mapping of the embedding is the one of JavaScript. *)
Fixpoint isAsciiText (str : string) : bool :=
  match str with
  | EmptyString => true
  | String c rest => (nat_of_ascii c <? 128)%nat && isAsciiText rest
  end.

(** The lines of [fromJson] and [toJson] for a field of class type and
    for a field whose type is a list of a class. *)
Definition classAssignLine (key name : string) : string :=
  "      " ++ key ++ ": json['" ++ key ++ "'] != null ? "
    ++ name ++ ".fromJson(json['" ++ key ++ "']) : null," ++ nl.

Definition listAssignLine (key name : string) : string :=
  "      " ++ key ++ ": json['" ++ key ++ "'] != null ? (json['" ++ key
    ++ "'] as List).map((item) => " ++ name
    ++ ".fromJson(item)).toList() : null," ++ nl.

Definition classWriteLine (key : string) : string :=
  "      '" ++ key ++ "': " ++ key ++ "?.toJson()," ++ nl.

Definition listWriteLine (key : string) : string :=
  "      '" ++ key ++ "': " ++ key
    ++ "?.map((item) => item.toJson()).toList()," ++ nl.

(** * Properties *)

(** ** Induction on values *)

(** Induction over the tree, with the hypothesis available for every
    element of an array and every field value of an object. *)
Lemma JsonValue_tree_ind (P : JsonValue -> Prop)
  (HNull : P JNull)
  (HBool : forall b, P (JBool b))
  (HNumber : forall x, P (JNumber x))
  (HString : forall s, P (JString s))
  (HArray : forall items, Forall P items -> P (JArray items))
  (HObject : forall fields, Forall (fun kv => P (snd kv)) fields ->
                            P (JObject fields)) :
  forall v, P v.
Proof.
  fix IH 1. intros [ | b | x | s | items | fields ].
  - exact HNull.
  - apply HBool.
  - apply HNumber.
  - apply HString.
  - apply HArray. induction items as [ | v items IHitems ].
    + constructor.
    + constructor; [ apply IH | exact IHitems ].
  - apply HObject. induction fields as [ | [k v] fields IHfields ].
    + constructor.
    + constructor; [ apply IH | exact IHfields ].
Qed.

(** The same, with the hypothesis also for the first element of a field
    value that is an array: the values [generateNestedClasses] recurses
    into. *)
Lemma JsonValue_nested_ind (P : JsonValue -> Prop)
  (HNull : P JNull)
  (HBool : forall b, P (JBool b))
  (HNumber : forall x, P (JNumber x))
  (HString : forall s, P (JString s))
  (HArray : forall items,
      Forall (fun v => P v /\ P (firstOf v)) items -> P (JArray items))
  (HObject : forall fields,
      Forall (fun kv => P (snd kv) /\ P (firstOf (snd kv))) fields ->
      P (JObject fields)) :
  forall v, P v.
Proof.
  assert (H : forall v, P v /\ P (firstOf v)).
  { induction v as [ | b | x | s | items IH | fields IH ]
      using JsonValue_tree_ind; simpl.
    - split; exact HNull.
    - split; [ apply HBool | exact HNull ].
    - split; [ apply HNumber | exact HNull ].
    - split; [ apply HString | exact HNull ].
    - split; [ apply HArray; exact IH | ].
      destruct IH as [ | v items [Hv _] _ ]; [ exact HNull | exact Hv ].
    - split; [ apply HObject; exact IH | exact HNull ]. }
  intro v. apply H.
Qed.

(** ** Strings, lists and the error monad *)

Lemma append_assoc (a b c : string) : (a ++ b) ++ c = a ++ (b ++ c).
Proof. induction a as [ | x a IH ]; simpl; [ | rewrite IH ]; reflexivity. Qed.

Lemma append_empty_r (a : string) : a ++ EmptyString = a.
Proof. induction a as [ | x a IH ]; simpl; [ | rewrite IH ]; reflexivity. Qed.

Lemma joinTexts_app (l1 l2 : list string) :
  joinTexts (l1 ++ l2) = joinTexts l1 ++ joinTexts l2.
Proof.
  induction l1 as [ | s l1 IH ]; simpl; [ reflexivity | ].
  rewrite IH, append_assoc. reflexivity.
Qed.

Lemma fold_left_append {A : Type} (f : A -> string) (l : list A)
  (acc : string) :
  fold_left (fun content a => content ++ f a) l acc
  = acc ++ joinTexts (map f l).
Proof.
  revert acc. induction l as [ | a l IH ]; intro acc; simpl.
  - rewrite append_empty_r. reflexivity.
  - rewrite IH, append_assoc. reflexivity.
Qed.

Lemma mapM_app {A B : Type} (f : A -> Throws B) (l1 l2 : list A) :
  mapM f (l1 ++ l2)
  = bs1 <- mapM f l1 ;; bs2 <- mapM f l2 ;; Some (bs1 ++ bs2)%list.
Proof.
  induction l1 as [ | a l1 IH ]; simpl.
  - destruct (mapM f l2); reflexivity.
  - destruct (f a) as [ b | ]; simpl; [ | reflexivity ].
    rewrite IH. destruct (mapM f l1); simpl; [ | reflexivity ].
    destruct (mapM f l2); reflexivity.
Qed.

Lemma flatItems_indexed step i items :
  flatItems step i items = flatFields step (indexed i items).
Proof.
  revert i. induction items as [ | v items IH ]; intro i; simpl.
  - reflexivity.
  - rewrite IH. reflexivity.
Qed.

Lemma forItems_indexed body i acc items :
  forItems body i acc items = forOf body acc (indexed i items).
Proof.
  revert i acc. induction items as [ | v items IH ]; intros i acc; simpl.
  - reflexivity.
  - destruct (body acc (index_key i) v); simpl; [ apply IH | reflexivity ].
Qed.

(** ** The functions in the form of the source *)

Lemma forOf_chars rec acc i s :
  forOf (nestedStep rec) acc (indexed i (chars s)) = Some acc.
Proof.
  revert i. induction s as [ | c s IH ]; intro i; simpl.
  - reflexivity.
  - apply IH.
Qed.

(** [generateNestedClasses] is the loop of the source over
    [Object.entries(obj)], started with the empty text. *)
Lemma generateNestedClasses_unfold obj className :
  generateNestedClasses obj className
  = es <- Object_entries obj ;;
    forOf (nestedStep generateNestedClasses) EmptyString es.
Proof.
  destruct obj as [ | b | x | s | items | fields ]; simpl; try reflexivity.
  - symmetry. apply forOf_chars.
  - apply forItems_indexed.
Qed.

Lemma collectNested_unfold lvl obj :
  collectNested lvl obj
  = match Object_entries obj with
    | Some es => flatFields (collectStep collectNested lvl) es
    | None => []
    end.
Proof.
  destruct obj as [ | b | x | s | items | fields ]; simpl; try reflexivity.
  - generalize 0. induction s as [ | c s IH ]; intro i; simpl.
    + reflexivity.
    + apply IH.
  - apply flatItems_indexed.
Qed.

(** The class name is the only thing [generateNestedClasses] is given
    besides the value, and it does not read it. *)
Lemma generateNestedClasses_name_irrelevant obj name1 name2 :
  generateNestedClasses obj name1 = generateNestedClasses obj name2.
Proof. destruct obj; reflexivity. Qed.

Lemma generateFieldType_render value key :
  generateFieldType value key = renderType (typeOf value key).
Proof.
  destruct value as [ | b | x | s | items | fields ]; try reflexivity.
  - simpl. destruct (Number_isInteger x); reflexivity.
  - destruct items as [ | first rest ]; [ reflexivity | ].
    destruct first as [ | b | x | s | items | fields ]; try reflexivity.
    simpl. destruct (Number_isInteger x); reflexivity.
Qed.

(** The body of the loop with the two tests of the source. *)
Lemma nestedStep_source_form rec nestedClasses key value :
  nestedStep rec nestedClasses key value
  = if isNestedObject value then
      nested <- rec value (capitalizeFirst key) ;;
      content <- generateClassContent value (capitalizeFirst key) ;;
      Some ((((nestedClasses ++ nested)
                ++ nl ++ "class " ++ capitalizeFirst key ++ " {" ++ nl)
               ++ content) ++ "}" ++ nl)
    else if isObjectList value then
      nested <- rec (firstOf value)
                  (capitalizeFirst (replace_trailing_s key)) ;;
      content <- generateClassContent (firstOf value)
                   (capitalizeFirst (replace_trailing_s key)) ;;
      Some ((((nestedClasses ++ nested)
                ++ nl ++ "class "
                ++ capitalizeFirst (replace_trailing_s key) ++ " {" ++ nl)
               ++ content) ++ "}" ++ nl)
    else Some nestedClasses.
Proof.
  destruct value as [ | b | x | s | [ | first rest ] | fields ];
    reflexivity.
Qed.

(** The text of a class body is made of four sections, each a loop over
    the same entries. *)
Lemma generateClassContent_sections obj className :
  generateClassContent obj className
  = es <- Object_entries obj ;;
    Some (fieldsSection es
          ++ constructorSection className (map fst es)
          ++ fromJsonSection className
               (map (fun kv => fromJsonLine (fst kv) (snd kv)) es)
          ++ toJsonSection
               (map (fun kv => toJsonLine (fst kv) (snd kv)) es)).
Proof.
  unfold generateClassContent, Object_keys.
  destruct (Object_entries obj) as [ es | ]; [ | reflexivity ].
  unfold bind. f_equal.
  rewrite !fold_left_append.
  unfold fieldsSection, constructorSection, fromJsonSection, toJsonSection.
  rewrite !append_assoc. reflexivity.
Qed.

Lemma generateClassContent_null className :
  generateClassContent JNull className = None.
Proof. reflexivity. Qed.

Lemma generateClassContent_total obj className :
  obj <> JNull -> exists content, generateClassContent obj className = Some content.
Proof.
  intro H. rewrite generateClassContent_sections.
  destruct obj; try congruence; simpl; eexists; reflexivity.
Qed.

(** [generateDartClass] appends the text of the root class to the text of
    the nested classes. *)
Lemma generateDartClass_root json className :
  generateDartClass json className
  = nested <- generateNestedClasses json className ;;
    root <- classText {| specName := className; sourceObject := json;
                         level := 0 |} ;;
    Some (nested ++ root).
Proof.
  unfold generateDartClass, classText. cbn [specName sourceObject].
  destruct (generateNestedClasses json className) as [ nested | ];
    [ | reflexivity ].
  unfold bind.
  destruct (generateClassContent json className) as [ content | ];
    [ | reflexivity ].
  rewrite !append_assoc. reflexivity.
Qed.

(** ** The collector, class by class *)

Lemma nestedStep_acc rec acc key value :
  nestedStep rec acc key value
  = t <- nestedStep rec EmptyString key value ;; Some (acc ++ t).
Proof.
  unfold nestedStep.
  destruct (isNestedObject value).
  - destruct (rec value _) as [ nested | ]; [ | reflexivity ].
    unfold bind.
    destruct (generateClassContent value _) as [ content | ];
      [ | reflexivity ].
    rewrite !append_assoc. reflexivity.
  - destruct value as [ | | | | [ | first rest ] | ];
      try (simpl; rewrite append_empty_r; reflexivity).
    destruct (tag_eqb (typeof first) TObject);
      [ | simpl; rewrite append_empty_r; reflexivity ].
    destruct (rec first _) as [ nested | ]; [ | reflexivity ].
    unfold bind.
    destruct (generateClassContent first _) as [ content | ];
      [ | reflexivity ].
    rewrite !append_assoc. reflexivity.
Qed.

(** The text of the collector is the concatenation of what each entry
    contributes. *)
Lemma forOf_nestedEntry es acc :
  forOf (nestedStep generateNestedClasses) acc es
  = ts <- mapM (fun kv => nestedEntry (fst kv) (snd kv)) es ;;
    Some (acc ++ joinTexts ts).
Proof.
  revert acc. induction es as [ | [key value] es IH ]; intro acc; simpl.
  - rewrite append_empty_r. reflexivity.
  - rewrite nestedStep_acc. fold (nestedEntry key value).
    destruct (nestedEntry key value) as [ t | ]; [ | reflexivity ].
    simpl. rewrite IH.
    destruct (mapM _ es) as [ ts | ]; [ | reflexivity ].
    simpl. rewrite append_assoc. reflexivity.
Qed.

Lemma generateNestedClasses_entries obj className :
  generateNestedClasses obj className
  = es <- Object_entries obj ;;
    ts <- mapM (fun kv => nestedEntry (fst kv) (snd kv)) es ;;
    Some (joinTexts ts).
Proof.
  rewrite generateNestedClasses_unfold.
  destruct (Object_entries obj) as [ es | ]; [ | reflexivity ].
  simpl. apply forOf_nestedEntry.
Qed.

Lemma nested_class_texts v name lvl acc :
  (forall className l,
      generateNestedClasses v className
      = es <- Object_entries v ;;
        ts <- mapM classText (collectNested l v) ;; Some (joinTexts ts)) ->
  (nested <- generateNestedClasses v name ;;
   content <- generateClassContent v name ;;
   Some ((((acc ++ nested) ++ nl ++ "class " ++ name ++ " {" ++ nl)
            ++ content) ++ "}" ++ nl))
  = ts <- mapM classText
            (collectNested (S lvl) v
               ++ [ {| specName := name; sourceObject := v;
                       level := lvl |} ])%list ;;
    Some (acc ++ joinTexts ts).
Proof.
  intro Hv. rewrite mapM_app, (Hv name (S lvl)).
  destruct (Object_entries v) as [ es | ] eqn:E.
  - cbn [bind].
    destruct (mapM classText (collectNested (S lvl) v)) as [ ts | ];
      [ | reflexivity ].
    cbn [bind mapM]. unfold classText. cbn [specName sourceObject].
    destruct (generateClassContent v name) as [ content | ];
      [ | reflexivity ].
    cbn [bind]. f_equal. rewrite joinTexts_app.
    cbn [joinTexts fold_right]. rewrite append_empty_r, !append_assoc.
    reflexivity.
  - destruct v; try discriminate. reflexivity.
Qed.

Lemma nestedStep_texts lvl acc key value :
  (forall v, v = value \/ v = firstOf value ->
     forall className l,
       generateNestedClasses v className
       = es <- Object_entries v ;;
         ts <- mapM classText (collectNested l v) ;; Some (joinTexts ts)) ->
  nestedStep generateNestedClasses acc key value
  = ts <- mapM classText (collectStep collectNested lvl key value) ;;
    Some (acc ++ joinTexts ts).
Proof.
  intro H. unfold nestedStep, collectStep. cbv zeta.
  destruct (isNestedObject value).
  - apply nested_class_texts. apply H. left. reflexivity.
  - destruct value as [ | | | | [ | first rest ] | ];
      try (cbn [bind mapM joinTexts fold_right];
           rewrite append_empty_r; reflexivity).
    destruct (tag_eqb (typeof first) TObject).
    + apply nested_class_texts. apply H. right. reflexivity.
    + cbn [bind mapM joinTexts fold_right].
      rewrite append_empty_r. reflexivity.
Qed.

Lemma forOf_texts lvl es :
  Forall (fun kv : string * JsonValue =>
            forall v, v = snd kv \/ v = firstOf (snd kv) ->
              forall className l,
                generateNestedClasses v className
                = es <- Object_entries v ;;
                  ts <- mapM classText (collectNested l v) ;;
                  Some (joinTexts ts)) es ->
  forall acc,
    forOf (nestedStep generateNestedClasses) acc es
    = ts <- mapM classText (flatFields (collectStep collectNested lvl) es) ;;
      Some (acc ++ joinTexts ts).
Proof.
  induction 1 as [ | [key value] es Hkv _ IH ]; intro acc.
  - cbn [forOf flatFields mapM bind joinTexts fold_right].
    rewrite append_empty_r. reflexivity.
  - cbn [forOf flatFields]. rewrite mapM_app.
    rewrite (nestedStep_texts lvl acc key value Hkv).
    destruct (mapM classText (collectStep collectNested lvl key value))
      as [ ts1 | ]; [ | reflexivity ].
    cbn [bind]. rewrite IH.
    destruct (mapM classText (flatFields _ es)) as [ ts2 | ];
      [ | reflexivity ].
    cbn [bind]. rewrite joinTexts_app, append_assoc. reflexivity.
Qed.

Lemma Forall_indexed {A : Type} (P : A -> Prop) (l : list A) :
  Forall P l -> forall i, Forall (fun kv => P (snd kv)) (indexed i l).
Proof.
  induction 1 as [ | a l Ha _ IH ]; intro i; simpl; constructor.
  - exact Ha.
  - apply IH.
Qed.

(** The text of the collector is the texts of the classes of
    [collectNested], one after the other; the collector throws on [null],
    and where the text of one of these classes does. *)
Lemma generateNestedClasses_texts obj :
  forall className lvl,
    generateNestedClasses obj className
    = es <- Object_entries obj ;;
      ts <- mapM classText (collectNested lvl obj) ;; Some (joinTexts ts).
Proof.
  induction obj as [ | b | x | s | items IH | fields IH ]
    using JsonValue_nested_ind; intros className lvl; try reflexivity.
  - rewrite generateNestedClasses_unfold, collectNested_unfold.
    cbn [Object_entries bind].
    rewrite (forOf_texts lvl); [ reflexivity | ].
    apply Forall_indexed with (P := fun v0 => forall v,
      v = v0 \/ v = firstOf v0 -> _).
    eapply Forall_impl; [ | exact IH ].
    intros v0 [H0 H1] v [-> | ->]; assumption.
  - rewrite generateNestedClasses_unfold, collectNested_unfold.
    cbn [Object_entries bind].
    rewrite (forOf_texts lvl); [ reflexivity | ].
    eapply Forall_impl; [ | exact IH ].
    intros [k v0] [H0 H1] v [-> | ->]; assumption.
Qed.

(** The whole output is the texts of the emitted classes. *)
Lemma generateDartClass_texts json className :
  generateDartClass json className
  = ts <- mapM classText (emittedClasses json className) ;;
    Some (joinTexts ts).
Proof.
  rewrite generateDartClass_root, (generateNestedClasses_texts json _ 1).
  unfold emittedClasses. rewrite mapM_app.
  destruct (Object_entries json) as [ es | ] eqn:E.
  - cbn [bind].
    destruct (mapM classText (collectNested 1 json)) as [ ts | ];
      [ | reflexivity ].
    cbn [bind mapM].
    destruct (classText _) as [ root | ]; [ | reflexivity ].
    cbn [bind]. rewrite joinTexts_app. cbn [joinTexts fold_right].
    rewrite append_empty_r. reflexivity.
  - destruct json; try discriminate. reflexivity.
Qed.

(** ** The order of the emitted classes *)

Lemma app_eq_mid {A : Type} (l1 l2 before after : list A) (c : A) :
  (l1 ++ l2 = before ++ c :: after)%list ->
  (exists r, l1 = before ++ c :: r /\ after = r ++ l2)%list
  \/ (exists p, before = l1 ++ p /\ l2 = p ++ c :: after)%list.
Proof.
  revert before. induction l1 as [ | a l1 IH ]; intros before H.
  - right. exists before. split; [ reflexivity | exact H ].
  - destruct before as [ | b before ]; simpl in H.
    + injection H as -> <-. left. exists l1. split; reflexivity.
    + injection H as -> H. destruct (IH _ H) as [[r [-> ->]] | [p [-> ->]]].
      * left. exists r. split; reflexivity.
      * right. exists p. split; reflexivity.
Qed.

Lemma app_single_eq_mid {A : Type} (l before after : list A) (x c : A) :
  (l ++ [x] = before ++ c :: after)%list ->
  (before = l /\ c = x /\ after = [])
  \/ (exists r, l = before ++ c :: r)%list.
Proof.
  intro H. destruct (app_eq_mid _ _ _ _ _ H) as [[r [-> _]] | [p [-> Hp]]].
  - right. exists r. reflexivity.
  - left. destruct p as [ | y p ]; simpl in Hp.
    + injection Hp as -> <-. rewrite app_nil_r. repeat split.
    + injection Hp as _ Hp. destruct p; discriminate.
Qed.

Lemma collectStep_descendants lvl key value before c after :
  (forall v, v = value \/ v = firstOf value ->
     forall l b c' a,
       collectNested l v = (b ++ c' :: a)%list ->
       exists b',
         b = (b' ++ collectNested (S (level c')) (sourceObject c'))%list) ->
  collectStep collectNested lvl key value = (before ++ c :: after)%list ->
  exists before',
    before = (before' ++ collectNested (S (level c)) (sourceObject c))%list.
Proof.
  intros H. unfold collectStep.
  destruct (isNestedObject value).
  - intro E. apply app_single_eq_mid in E as [[-> [-> _]] | [r E]].
    + exists []. reflexivity.
    + eapply H; [ left; reflexivity | exact E ].
  - destruct value as [ | | | | [ | first rest ] | ];
      try (intro E; destruct before; discriminate).
    destruct (tag_eqb (typeof first) TObject);
      [ | intro E; destruct before; discriminate ].
    intro E. apply app_single_eq_mid in E as [[-> [-> _]] | [r E]].
    + exists []. reflexivity.
    + eapply H; [ right; reflexivity | exact E ].
Qed.

Lemma flatFields_descendants lvl es :
  Forall (fun kv : string * JsonValue =>
            forall v, v = snd kv \/ v = firstOf (snd kv) ->
              forall l b c' a,
                collectNested l v = (b ++ c' :: a)%list ->
                exists b',
                  b = (b' ++ collectNested (S (level c'))
                                           (sourceObject c'))%list) es ->
  forall before c after,
    flatFields (collectStep collectNested lvl) es
    = (before ++ c :: after)%list ->
    exists before',
      before = (before' ++ collectNested (S (level c)) (sourceObject c))%list.
Proof.
  induction 1 as [ | [key value] es Hkv _ IH ]; intros before c after E.
  - destruct before; discriminate.
  - cbn [flatFields] in E.
    apply app_eq_mid in E as [[r [E _]] | [p [-> E]]].
    + exact (collectStep_descendants lvl key value _ _ _ Hkv E).
    + destruct (IH _ _ _ E) as [p' ->].
      exists (collectStep collectNested lvl key value ++ p')%list.
      rewrite app_assoc. reflexivity.
Qed.

(** In the list of the collector, the classes nested in a class come just
    before it. *)
Lemma collectNested_descendants obj :
  forall lvl before c after,
    collectNested lvl obj = (before ++ c :: after)%list ->
    exists before',
      before = (before' ++ collectNested (S (level c)) (sourceObject c))%list.
Proof.
  induction obj as [ | b | x | s | items IH | fields IH ]
    using JsonValue_nested_ind; intros lvl before c after E;
    try (destruct before; discriminate).
  - rewrite collectNested_unfold in E. cbn [Object_entries] in E.
    revert E. apply flatFields_descendants.
    apply Forall_indexed with (P := fun v0 => forall v,
      v = v0 \/ v = firstOf v0 -> _).
    eapply Forall_impl; [ | exact IH ].
    intros v0 [H0 H1] v [-> | ->]; assumption.
  - rewrite collectNested_unfold in E. cbn [Object_entries] in E.
    revert E. apply flatFields_descendants.
    eapply Forall_impl; [ | exact IH ].
    intros [k v0] [H0 H1] v [-> | ->]; assumption.
Qed.

Lemma emittedClasses_descendants json className :
  DescendantsPrecede json className.
Proof.
  intros before c after E. unfold emittedClasses in E.
  apply app_single_eq_mid in E as [[-> [-> _]] | [r E]].
  - exists []. reflexivity.
  - exact (collectNested_descendants json 1 _ _ _ E).
Qed.

Lemma flatFields_app step es1 es2 :
  flatFields step (es1 ++ es2)
  = (flatFields step es1 ++ flatFields step es2)%list.
Proof.
  induction es1 as [ | [k v] es1 IH ]; simpl; [ reflexivity | ].
  rewrite IH, app_assoc. reflexivity.
Qed.

(** The class a field refers to is the last class the collector emits for
    that field. *)
Lemma collectStep_named_class lvl key value name :
  namedClassOf (typeOf value key) = Some name ->
  exists descendants d,
    collectStep collectNested lvl key value = (descendants ++ [d])%list
    /\ specName d = name /\ level d = lvl
    /\ (sourceObject d = value \/ sourceObject d = firstOf value).
Proof.
  unfold collectStep.
  destruct value as [ | b | x | s | [ | first rest ] | fields ];
    try discriminate.
  - simpl. destruct (Number_isInteger x); discriminate.
  - destruct first as [ | b | x | s | items | fields ]; try discriminate.
    + simpl. destruct (Number_isInteger x); discriminate.
    + intro E. injection E as <-. eexists _, _. split; [ reflexivity | ].
      cbn. auto.
    + intro E. injection E as <-. eexists _, _. split; [ reflexivity | ].
      cbn. auto.
  - intro E. injection E as <-. eexists _, _. split; [ reflexivity | ].
    cbn. auto.
Qed.

Lemma definitionsOf_app name l1 l2 :
  definitionsOf name (l1 ++ l2)
  = definitionsOf name l1 + definitionsOf name l2.
Proof.
  unfold definitionsOf. rewrite filter_app, length_app. reflexivity.
Qed.

Lemma definitionsOf_here name d :
  specName d = name -> definitionsOf name [d] = 1.
Proof.
  intros <-. unfold definitionsOf. simpl. rewrite String.eqb_refl.
  reflexivity.
Qed.

Lemma referenced_class_collected obj lvl es key value name :
  Object_entries obj = Some es ->
  In (key, value) es ->
  namedClassOf (typeOf value key) = Some name ->
  1 <= definitionsOf name (collectNested lvl obj).
Proof.
  intros Hes Hin Hname. rewrite collectNested_unfold, Hes.
  apply in_split in Hin as [es1 [es2 ->]].
  rewrite flatFields_app. cbn [flatFields].
  destruct (collectStep_named_class lvl key value name Hname)
    as [descendants [d [-> [Hd _]]]].
  rewrite !definitionsOf_app, (definitionsOf_here name d Hd). lia.
Qed.

(** ** When generation throws *)

Lemma mapM_none_iff {A B : Type} (f : A -> Throws B) (l : list A) :
  mapM f l = None <-> exists a, In a l /\ f a = None.
Proof.
  induction l as [ | a l IH ]; simpl.
  - split; [ discriminate | intros [a [[] _]] ].
  - destruct (f a) as [ b | ] eqn:E; simpl.
    + destruct (mapM f l) as [ bs | ]; simpl.
      * split; [ discriminate | ].
        intros [a' [[<- | Hin] Ha']]; [ congruence | ].
        assert (H : Some bs = None)
          by (apply IH; exists a'; split; assumption).
        discriminate H.
      * split; [ | reflexivity ]. intros _.
        destruct (proj1 IH eq_refl) as [a' [Hin Ha']].
        exists a'. split; [ right | ]; assumption.
    + split; [ | reflexivity ]. intros _. exists a. split; [ left | ]; auto.
Qed.

Lemma classText_none_iff c : classText c = None <-> sourceObject c = JNull.
Proof.
  unfold classText. rewrite generateClassContent_sections.
  destruct (sourceObject c); simpl; split; congruence.
Qed.

(** Generation throws exactly when the root is [null] or the collector
    reaches an array whose first element is [null]: these are the emitted
    classes whose source is [null]. *)
Lemma generateDartClass_throws_iff json className :
  generateDartClass json className = None
  <-> exists c, In c (emittedClasses json className) /\ sourceObject c = JNull.
Proof.
  rewrite generateDartClass_texts.
  destruct (mapM classText (emittedClasses json className)) as [ ts | ] eqn:E.
  - simpl. split; [ discriminate | ].
    intros [c [Hin Hc]]. apply classText_none_iff in Hc.
    assert (H : mapM classText (emittedClasses json className) = None)
      by (apply mapM_none_iff; exists c; split; assumption).
    congruence.
  - simpl. split; [ | reflexivity ]. intros _.
    apply mapM_none_iff in E as [c [Hin Hc]].
    exists c. split; [ exact Hin | apply classText_none_iff; exact Hc ].
Qed.

(** C1: once the text is parsed, generation is expected to return an
    output string for every value tree, among them the trees with an
    array whose first element is null.  On [{"a": [null]}] it does not:
    the collector takes [typeof value[0] === 'object'] to mean an object,
    calls itself on [null], and [Object.entries(null)] throws; the type
    of the same field is computed without failure, [List<dynamic>]. *)
Theorem C1_generation_throws_on_null_first_element :
  generateDartClass sample_null_item "MyModel" = None
  /\ ~ GenerationReturns sample_null_item "MyModel"
  /\ generateFieldType (JArray [JNull]) "a" = "List<dynamic>"
  /\ isObjectList (JArray [JNull]) = true.
Proof.
  split; [ reflexivity | ].
  split; [ intros [out H]; discriminate H | ].
  split; reflexivity.
Qed.

(** ** The collector, field by field *)

(** C2, as stated, fails: for the field [a] of [{"a": [[1, 2]]}], an array
    whose first element is an array, the collector emits a class [A]. *)
Lemma C2_counterexample_array_of_arrays :
  ~ SkipsArraysOfArraysAndScalars.
Proof.
  intro H.
  specialize (H "a" (JArray [JNumber num_1; JNumber num_2]) [] eq_refl).
  vm_compute in H. discriminate H.
Qed.

(** C2, amended: the collector is the concatenation of what each field
    contributes.  For a field whose value is a non-null, non-array object
    it recurses into the value and then emits the class of the value; for
    a field whose value is an array whose first element is an object or
    an array it recurses into that first element and then emits its class
    (an array is read as an object whose keys are its indices); for a
    field whose value is null, a scalar, an empty array or an array whose
    first element is a scalar it emits nothing, whatever the recursive
    function is. *)
Theorem C2_collector_descends_into_objects_and_first_items :
  (forall obj className,
      generateNestedClasses obj className
      = es <- Object_entries obj ;;
        forOf (nestedStep generateNestedClasses) EmptyString es)
  /\ (forall rec acc key fields,
         nestedStep rec acc key (JObject fields)
         = nested <- rec (JObject fields) (capitalizeFirst key) ;;
           content <- generateClassContent (JObject fields)
                        (capitalizeFirst key) ;;
           Some (acc ++ nested ++ nl ++ "class " ++ capitalizeFirst key
                   ++ " {" ++ nl ++ content ++ "}" ++ nl))
  /\ (forall rec acc key first rest,
         isNestedObject first || Array_isArray first = true ->
         nestedStep rec acc key (JArray (first :: rest))
         = nested <- rec first (capitalizeFirst (replace_trailing_s key)) ;;
           content <- generateClassContent first
                        (capitalizeFirst (replace_trailing_s key)) ;;
           Some (acc ++ nested ++ nl ++ "class "
                   ++ capitalizeFirst (replace_trailing_s key)
                   ++ " {" ++ nl ++ content ++ "}" ++ nl))
  /\ (forall rec acc key value,
         isNull value || isScalar value = true ->
         nestedStep rec acc key value = Some acc)
  /\ (forall rec acc key, nestedStep rec acc key (JArray []) = Some acc)
  /\ (forall rec acc key first rest,
         isScalar first = true ->
         nestedStep rec acc key (JArray (first :: rest)) = Some acc)
  /\ (forall lvl key first rest,
         isNestedObject first || Array_isArray first = true ->
         collectStep collectNested lvl key (JArray (first :: rest))
         = (collectNested (S lvl) first
              ++ [ {| specName := capitalizeFirst (replace_trailing_s key);
                      sourceObject := first; level := lvl |} ])%list).
Proof.
  split; [ exact generateNestedClasses_unfold | ].
  split.
  { intros rec acc key fields. unfold nestedStep. cbn [isNestedObject typeof
      tag_eqb isNull Array_isArray andb negb]. cbv zeta.
    destruct (rec _ _) as [ nested | ]; [ | reflexivity ].
    unfold bind.
    destruct (generateClassContent _ _) as [ content | ]; [ | reflexivity ].
    rewrite !append_assoc. reflexivity. }
  split.
  { intros rec acc key first rest H. unfold nestedStep.
    cbn [isNestedObject typeof tag_eqb isNull Array_isArray andb negb].
    assert (Ht : tag_eqb (typeof first) TObject = true)
      by (destruct first; try discriminate H; reflexivity).
    rewrite Ht. cbv zeta.
    destruct (rec _ _) as [ nested | ]; [ | reflexivity ].
    unfold bind.
    destruct (generateClassContent _ _) as [ content | ]; [ | reflexivity ].
    rewrite !append_assoc. reflexivity. }
  split.
  { intros rec acc key value H.
    destruct value; try discriminate H; reflexivity. }
  split; [ reflexivity | ].
  split.
  { intros rec acc key first rest H.
    destruct first; try discriminate H; reflexivity. }
  intros lvl key first rest H.
  destruct first; try discriminate H; reflexivity.
Qed.

Lemma C2_collector_descends_witness :
  let first := JArray [JNumber num_1; JNumber num_2] in
  isNestedObject first || Array_isArray first = true
  /\ isNull JNull || isScalar JNull = true
  /\ isScalar (JNumber num_1) = true
  /\ nestedStep generateNestedClasses EmptyString "a" (JArray [first])
     = (nested <- generateNestedClasses first "A" ;;
        content <- generateClassContent first "A" ;;
        Some (EmptyString ++ nested ++ nl ++ "class " ++ "A" ++ " {" ++ nl
                ++ content ++ "}" ++ nl))
  /\ nestedStep generateNestedClasses EmptyString "a" JNull
     = Some EmptyString
  /\ nestedStep generateNestedClasses EmptyString "a"
       (JArray [JNumber num_1]) = Some EmptyString.
Proof.
  pose proof C2_collector_descends_into_objects_and_first_items
    as [_ [_ [Hitem [Hskip [_ [Hscalar _]]]]]].
  split; [ reflexivity | ].
  split; [ reflexivity | ].
  split; [ reflexivity | ].
  split; [ exact (Hitem generateNestedClasses EmptyString "a"
                    (JArray [JNumber num_1; JNumber num_2]) [] eq_refl) | ].
  split; [ exact (Hskip generateNestedClasses EmptyString "a" JNull eq_refl) | ].
  exact (Hscalar generateNestedClasses EmptyString "a" (JNumber num_1) []
           eq_refl).
Defined.

(** ** The type of a field *)

(** C3, as stated, fails: the type of [[[1, 2]]] for the key [a] is
    [List<A>], not the list of the type of its first element,
    [List<List<int>>]. *)
Lemma C3_counterexample_list_of_lists :
  ~ ListOfFirstElementType.
Proof.
  intro H.
  specialize (H "a" (JArray [JNumber num_1; JNumber num_2]) [] eq_refl).
  vm_compute in H. discriminate H.
Qed.

(** C3, amended: for every key and every non-empty array, the type is
    the list of the type of the first element when that element is a
    scalar or null, and the list of the class named by the key (one
    trailing [s] removed, first letter capitalized) when the first
    element is an object or an array; only the first element is looked
    at. *)
Theorem C3_list_type_from_first_element :
  forall key first rest,
    generateFieldType (JArray (first :: rest)) key
    = match first with
      | JArray _ | JObject _ =>
          "List<" ++ capitalizeFirst (replace_trailing_s key) ++ ">"
      | _ => "List<" ++ generateFieldType first key ++ ">"
      end
    /\ typeOf (JArray (first :: rest)) key
       = match first with
         | JArray _ | JObject _ =>
             ListOf (NamedClass (capitalizeFirst (replace_trailing_s key)))
         | _ => ListOf (typeOf first key)
         end
    /\ generateFieldType (JArray (first :: rest)) key
       = renderType (typeOf (JArray (first :: rest)) key).
Proof.
  intros key first rest.
  split; [ destruct first; reflexivity | ].
  split; [ destruct first; reflexivity | ].
  apply generateFieldType_render.
Qed.

(** C5: the literal inference table.  null gives [dynamic], 5 gives
    [int], 5.5 gives [double], a string gives [String], true gives
    [bool], the empty array gives [List<dynamic>], [[1, 2]] gives
    [List<int>]; for the key [items] the value [[{"b": 1}]] gives
    [List<Item>], and the collector emits a class [Item] with an [int]
    field [b]. *)
Theorem C5_type_inference_table :
  generateFieldType JNull "a" = "dynamic"
  /\ generateFieldType (JNumber num_5) "a" = "int"
  /\ generateFieldType (JNumber num_5_5) "a" = "double"
  /\ generateFieldType (JString "x") "a" = "String"
  /\ generateFieldType (JBool true) "a" = "bool"
  /\ generateFieldType (JArray []) "a" = "List<dynamic>"
  /\ generateFieldType (JArray [JNumber num_1; JNumber num_2]) "a"
     = "List<int>"
  /\ generateFieldType (JArray [JObject [("b", JNumber num_1)]]) "items"
     = "List<Item>"
  /\ collectNested 1 sample_items
     = [ {| specName := "Item";
            sourceObject := JObject [("b", JNumber num_1)];
            level := 1 |} ]
  /\ generateNestedClasses sample_items "MyModel"
     = Some (unlines
               [ EmptyString;
                 "class Item {";
                 "  final int? b;";
                 EmptyString;
                 "  Item({";
                 "    this.b,";
                 "  });";
                 EmptyString;
                 "  factory Item.fromJson(Map<String, dynamic> json) {";
                 "    return Item(";
                 "      b: json['b'],";
                 "    );";
                 "  }";
                 EmptyString;
                 "  Map<String, dynamic> toJson() {";
                 "    return {";
                 "      'b': b,";
                 "    };";
                 "  }";
                 "}" ]).
Proof. repeat split; vm_compute; reflexivity. Qed.

(** C9: generation does not fail on [{"": 1}].  The capitalizer returns
    the empty string on the empty string, the type of the field is [int],
    the name of the emitted field is the empty string, and the output is
    the class below. *)
Theorem C9_empty_key :
  capitalizeFirst EmptyString = EmptyString
  /\ generateFieldType (JNumber num_1) EmptyString = "int"
  /\ fieldLine EmptyString (JNumber num_1) = "  final int? ;" ++ nl
  /\ generateDartClass sample_empty_key "X"
     = Some (unlines
               [ EmptyString;
                 "class X {";
                 "  final int? ;";
                 EmptyString;
                 "  X({";
                 "    this.,";
                 "  });";
                 EmptyString;
                 "  factory X.fromJson(Map<String, dynamic> json) {";
                 "    return X(";
                 "      : json[''],";
                 "    );";
                 "  }";
                 EmptyString;
                 "  Map<String, dynamic> toJson() {";
                 "    return {";
                 "      '': ,";
                 "    };";
                 "  }";
                 "}" ]).
Proof. repeat split; vm_compute; reflexivity. Qed.

(** C10: the nested classes do not depend on the name of the root class.
    The collector gives the same result for any two class names; the
    output for a root name is the nested text, computed with whatever
    name, followed by the text of the root class; and in the text of the
    root class the name occurs in the header, as the name of the
    constructor and as the name of the factory, the lines of the four
    sections being computed from the entries alone. *)
Theorem C10_nested_classes_independent_of_root_name :
  forall json name1 name2,
    generateNestedClasses json name1 = generateNestedClasses json name2
    /\ generateDartClass json name1
       = (nested <- generateNestedClasses json name2 ;;
          root <- classText {| specName := name1; sourceObject := json;
                               level := 0 |} ;;
          Some (nested ++ root))
    /\ classText {| specName := name1; sourceObject := json; level := 0 |}
       = (es <- Object_entries json ;;
          Some (nl ++ "class " ++ name1 ++ " {" ++ nl
                  ++ (fieldsSection es
                        ++ constructorSection name1 (map fst es)
                        ++ fromJsonSection name1
                             (map (fun kv => fromJsonLine (fst kv) (snd kv))
                                  es)
                        ++ toJsonSection
                             (map (fun kv => toJsonLine (fst kv) (snd kv))
                                  es))
                  ++ "}" ++ nl)).
Proof.
  intros json name1 name2.
  split; [ apply generateNestedClasses_name_irrelevant | ].
  split.
  - rewrite generateDartClass_root.
    rewrite (generateNestedClasses_name_irrelevant json name1 name2).
    reflexivity.
  - unfold classText. cbn [specName sourceObject].
    rewrite generateClassContent_sections.
    destruct (Object_entries json); reflexivity.
Qed.

(** ** Named classes are defined before they are used *)

Lemma mapM_mid {A B : Type} (f : A -> Throws B) l1 x l2 ts :
  mapM f (l1 ++ x :: l2) = Some ts ->
  exists ts1 t ts2,
    mapM f l1 = Some ts1 /\ f x = Some t /\ mapM f l2 = Some ts2
    /\ ts = (ts1 ++ t :: ts2)%list.
Proof.
  rewrite mapM_app. cbn [mapM].
  destruct (mapM f l1) as [ ts1 | ]; [ | discriminate ].
  destruct (f x) as [ t | ]; [ | discriminate ].
  destruct (mapM f l2) as [ ts2 | ]; [ | discriminate ].
  cbn [bind]. intro E. injection E as <-.
  exists ts1, t, ts2. repeat split.
Qed.

Lemma joinTexts_mid ts1 t ts2 :
  joinTexts (ts1 ++ t :: ts2) = joinTexts ts1 ++ t ++ joinTexts ts2.
Proof. rewrite joinTexts_app. reflexivity. Qed.

Lemma definitionsOf_positive name l :
  1 <= definitionsOf name l ->
  exists l1 d l2, l = (l1 ++ d :: l2)%list /\ specName d = name.
Proof.
  unfold definitionsOf. induction l as [ | d l IH ]; simpl.
  - lia.
  - destruct (String.eqb (specName d) name) eqn:E.
    + intros _. exists [], d, l. split; [ reflexivity | ].
      apply String.eqb_eq. exact E.
    + intro H. destruct (IH H) as [l1 [d' [l2 [-> Hd']]]].
      exists (d :: l1), d', l2. split; [ reflexivity | exact Hd' ].
Qed.

(** C4, as stated, fails: in the output for
    [{"address": {}, "Address": {}}] the class [Address], to which the
    field [address] of the root class refers, is defined twice before the
    root class. *)
Lemma C4_counterexample_sibling_classes :
  GenerationReturns sample_siblings "Root"
  /\ ~ NamedClassesDefinedEarlier (fun n => n = 1) sample_siblings "Root".
Proof.
  split.
  - eexists. vm_compute. reflexivity.
  - intro H.
    specialize (H [ {| specName := "Address"; sourceObject := JObject [];
                       level := 1 |};
                    {| specName := "Address"; sourceObject := JObject [];
                       level := 1 |} ]
                  {| specName := "Root"; sourceObject := sample_siblings;
                     level := 0 |}
                  [] [("address", JObject []); ("Address", JObject [])]
                  "address" (JObject []) "Address"
                  eq_refl eq_refl (or_introl eq_refl) eq_refl).
    vm_compute in H. discriminate H.
Qed.

(** C4, amended: in every successful output, every class named by the
    type of a field of an emitted class has at least one definition
    before the class that contains the field, and the text of such a
    definition stands before the text of that class in the output; two
    fields whose keys give the same class name each bring a definition
    of their own. *)
Theorem C4_named_classes_defined_earlier :
  forall json className out,
    generateDartClass json className = Some out ->
    NamedClassesDefinedEarlier (fun n => 1 <= n) json className
    /\ (forall before c after es key value name,
           emittedClasses json className = (before ++ c :: after)%list ->
           Object_entries (sourceObject c) = Some es ->
           In (key, value) es ->
           namedClassOf (typeOf value key) = Some name ->
           exists d pre definition mid referring post,
             In d before /\ specName d = name
             /\ classText d = Some definition
             /\ classText c = Some referring
             /\ out = pre ++ definition ++ mid ++ referring ++ post).
Proof.
  intros json className out Hout.
  assert (Hcount : NamedClassesDefinedEarlier (fun n => 1 <= n)
                     json className).
  { intros before c after es key value name E Hes Hin Hname.
    destruct (emittedClasses_descendants json className _ _ _ E)
      as [before' ->].
    rewrite definitionsOf_app.
    pose proof (referenced_class_collected (sourceObject c) (S (level c))
                  es key value name Hes Hin Hname).
    lia. }
  split; [ exact Hcount | ].
  intros before c after es key value name E Hes Hin Hname.
  pose proof (Hcount _ _ _ _ _ _ _ E Hes Hin Hname) as Hpos.
  apply definitionsOf_positive in Hpos as [b1 [d [b2 [-> Hd]]]].
  rewrite generateDartClass_texts, E in Hout.
  destruct (mapM classText ((b1 ++ d :: b2) ++ c :: after)) as [ ts | ] eqn:M;
    [ | discriminate Hout ].
  cbn [bind] in Hout. injection Hout as <-.
  apply mapM_mid in M as [tb [tc [ta [Mb [Hc [_ ->]]]]]].
  apply mapM_mid in Mb as [t1 [td [t2 [_ [Hdt [_ ->]]]]]].
  exists d, (joinTexts t1), td, (joinTexts t2), tc, (joinTexts ta).
  split; [ apply in_or_app; right; left; reflexivity | ].
  split; [ exact Hd | ].
  split; [ exact Hdt | ].
  split; [ exact Hc | ].
  rewrite !joinTexts_mid, !append_assoc. reflexivity.
Qed.

Lemma C4_named_classes_defined_earlier_witness :
  exists out,
    generateDartClass sample_items "Root" = Some out
    /\ NamedClassesDefinedEarlier (fun n => 1 <= n) sample_items "Root"
    /\ exists d pre definition mid referring post,
         specName d = "Item"
         /\ classText d = Some definition
         /\ classText {| specName := "Root"; sourceObject := sample_items;
                         level := 0 |} = Some referring
         /\ out = pre ++ definition ++ mid ++ referring ++ post.
Proof.
  eexists. split; [ vm_compute; reflexivity | ].
  match goal with
  | |- NamedClassesDefinedEarlier _ _ _ /\ (exists d pre definition mid
         referring post, _ /\ _ /\ _ /\ ?out = _) =>
      destruct (C4_named_classes_defined_earlier sample_items "Root" out)
        as [Hcount Htext]; [ vm_compute; reflexivity | ]
  end.
  split; [ exact Hcount | ].
  destruct (Htext
              [ {| specName := "Item";
                   sourceObject := JObject [("b", JNumber num_1)];
                   level := 1 |} ]
              {| specName := "Root"; sourceObject := sample_items;
                 level := 0 |}
              [] [("items", JArray [JObject [("b", JNumber num_1)]])]
              "items" (JArray [JObject [("b", JNumber num_1)]]) "Item"
              eq_refl eq_refl (or_introl eq_refl) eq_refl)
    as [d [pre [definition [mid [referring [post
          [_ [Hd [Hdt [Hc Hout]]]]]]]]]].
  exists d, pre, definition, mid, referring, post.
  repeat split; assumption.
Defined.

(** ** Nested classes come before their parent *)

(** C6, as stated, fails: in the output for [{"a": {}, "b": {"c": {}}}]
    the classes come in the order [A], [C], [B], [Root]; the deepest
    class, [C], is not the first one. *)
Lemma C6_counterexample_deepest_not_first :
  GenerationReturns sample_two_branches "Root"
  /\ map specName (emittedClasses sample_two_branches "Root")
     = ["A"; "C"; "B"; "Root"]
  /\ ~ DeepestClassFirst sample_two_branches "Root".
Proof.
  split; [ eexists; vm_compute; reflexivity | ].
  split; [ reflexivity | ].
  intro H.
  specialize (H {| specName := "A"; sourceObject := JObject []; level := 1 |}
                _
                {| specName := "C"; sourceObject := JObject []; level := 2 |}
                eq_refl (or_introl eq_refl)).
  simpl in H. lia.
Qed.

(** C6, amended: in every successful output the text of the root class
    is last, after the text of the nested classes; the classes nested in
    an emitted class come just before that class, so that along every
    chain of nesting the deeper class stands before the shallower one;
    the first class of the output has no nested class of its own (it
    need not be the deepest of all); and for an object with a nested
    object field, the text of the nested class stands before the text of
    the root class. *)
Theorem C6_nested_classes_before_their_parent :
  forall json className out,
    generateDartClass json className = Some out ->
    (exists nested root,
        generateNestedClasses json className = Some nested
        /\ classText {| specName := className; sourceObject := json;
                        level := 0 |} = Some root
        /\ out = nested ++ root)
    /\ (exists texts,
           mapM classText (emittedClasses json className) = Some texts
           /\ out = joinTexts texts)
    /\ DescendantsPrecede json className
    /\ (forall first rest,
           emittedClasses json className = first :: rest ->
           collectNested (S (level first)) (sourceObject first) = [])
    /\ (forall fields key sub,
           json = JObject fields ->
           In (key, JObject sub) fields ->
           exists pre nestedText mid root,
             classText {| specName := capitalizeFirst key;
                          sourceObject := JObject sub; level := 1 |}
             = Some nestedText
             /\ classText {| specName := className; sourceObject := json;
                             level := 0 |} = Some root
             /\ out = pre ++ nestedText ++ mid ++ root).
Proof.
  intros json className out Hout.
  assert (Hroot : exists nested root,
             generateNestedClasses json className = Some nested
             /\ classText {| specName := className; sourceObject := json;
                             level := 0 |} = Some root
             /\ out = nested ++ root).
  { rewrite generateDartClass_root in Hout.
    destruct (generateNestedClasses json className) as [ nested | ];
      [ | discriminate Hout ].
    cbn [bind] in Hout.
    destruct (classText _) as [ root | ]; [ | discriminate Hout ].
    cbn [bind] in Hout. injection Hout as <-.
    exists nested, root. repeat split. }
  split; [ exact Hroot | ].
  split.
  { rewrite generateDartClass_texts in Hout.
    destruct (mapM classText (emittedClasses json className)) as [ ts | ];
      [ | discriminate Hout ].
    cbn [bind] in Hout. injection Hout as <-.
    exists ts. split; reflexivity. }
  split; [ apply emittedClasses_descendants | ].
  split.
  { intros first rest E.
    destruct (emittedClasses_descendants json className [] first rest E)
      as [before' Hb].
    symmetry in Hb. apply app_eq_nil in Hb as [_ Hb]. exact Hb. }
  intros fields key sub -> Hin.
  destruct Hroot as [nested [root [Hn [Hr ->]]]].
  rewrite (generateNestedClasses_texts _ _ 1) in Hn.
  cbn [Object_entries bind] in Hn.
  destruct (mapM classText (collectNested 1 (JObject fields))) as [ ts | ] eqn:M;
    [ | discriminate Hn ].
  cbn [bind] in Hn. injection Hn as <-.
  apply in_split in Hin as [f1 [f2 ->]].
  cbn [collectNested] in M. rewrite flatFields_app in M.
  cbn [flatFields] in M.
  change (collectStep collectNested 1 key (JObject sub))
    with (collectNested 2 (JObject sub)
            ++ [ {| specName := capitalizeFirst key;
                    sourceObject := JObject sub; level := 1 |} ])%list in M.
  rewrite <- !app_assoc in M. cbn [app] in M.
  rewrite app_assoc in M.
  apply mapM_mid in M as [t1 [t [t2 [_ [Ht [_ ->]]]]]].
  exists (joinTexts t1), t, (joinTexts t2), root.
  split; [ exact Ht | ].
  split; [ exact Hr | ].
  rewrite joinTexts_mid, !append_assoc. reflexivity.
Qed.

Lemma C6_nested_classes_before_their_parent_witness :
  exists out pre nestedText mid root,
    generateDartClass sample_two_branches "Root" = Some out
    /\ classText {| specName := "B"; sourceObject := JObject [("c", JObject [])];
                    level := 1 |} = Some nestedText
    /\ classText {| specName := "Root"; sourceObject := sample_two_branches;
                    level := 0 |} = Some root
    /\ out = pre ++ nestedText ++ mid ++ root.
Proof.
  eexists.
  match goal with
  | |- exists pre nestedText mid root, generateDartClass _ _ = Some ?out /\ _ =>
      assert (Hout : generateDartClass sample_two_branches "Root" = Some out)
        by (vm_compute; reflexivity);
      destruct (C6_nested_classes_before_their_parent
                  sample_two_branches "Root" out Hout)
        as [_ [_ [_ [_ Hfield]]]]
  end.
  destruct (Hfield [("a", JObject []); ("b", JObject [("c", JObject [])])]
              "b" [("c", JObject [])] eq_refl
              (or_intror (or_introl eq_refl)))
    as [pre [nestedText [mid [root [Hn [Hr Ho]]]]]].
  exists pre, nestedText, mid, root.
  split; [ exact Hout | ].
  split; [ exact Hn | ].
  split; [ exact Hr | exact Ho ].
Defined.

(** ** The handler *)

(** C7: when the input text is not valid JSON, that is when [JSON.parse]
    throws, the handler shows one error toast and nothing else: the
    stored output, the input and the class name are what they were, and
    no success toast is shown.  The toast is the one of the empty input
    when the text is blank, and the one of the invalid format
    otherwise; both have the title [Error] and the destructive
    variant. *)
Theorem C7_invalid_input_gives_error_and_no_output :
  forall (JSON_parse : string -> Throws JsonValue) (st : Component.State),
    JSON_parse (Component.jsonInput st) = None ->
    let st' := Component.convertJsonToDart JSON_parse st in
    Component.dartOutput st' = Component.dartOutput st
    /\ Component.jsonInput st' = Component.jsonInput st
    /\ Component.className st' = Component.className st
    /\ (exists t,
           Component.toasts st' = t :: Component.toasts st
           /\ t = (if trim_is_empty (Component.jsonInput st)
                   then Component.emptyInputToast
                   else Component.invalidJsonToast)
           /\ Component.title t = "Error"
           /\ Component.variant t = Component.variant_destructive).
Proof.
  intros JSON_parse st Hparse st'. subst st'.
  unfold Component.convertJsonToDart.
  destruct (trim_is_empty (Component.jsonInput st)).
  - cbn. repeat split. eexists. repeat split.
  - cbn [Component.setIsConverting Component.jsonInput Component.className].
    rewrite Hparse. cbn. repeat split. eexists. repeat split.
Qed.

Lemma C7_invalid_input_gives_error_and_no_output_witness :
  parse_empty_object (Component.jsonInput state_invalid_input) = None
  /\ Component.dartOutput
       (Component.convertJsonToDart parse_empty_object state_invalid_input)
     = "class Earlier {}"
  /\ Component.toasts
       (Component.convertJsonToDart parse_empty_object state_invalid_input)
     = [Component.invalidJsonToast].
Proof.
  split; [ reflexivity | ].
  destruct (C7_invalid_input_gives_error_and_no_output
              parse_empty_object state_invalid_input eq_refl)
    as [Hout [_ [_ [t [Ht [Hkind _]]]]]].
  split; [ exact Hout | ].
  rewrite Ht, Hkind. reflexivity.
Defined.

(** ** The keys of the deserializer and of the serializer *)

Lemma scalar_lines (es : list (string * JsonValue)) :
  forallb (fun kv => isScalar (snd kv)) es = true ->
  map (fun kv => fromJsonLine (fst kv) (snd kv)) es
  = map rawAssignLine (map fst es)
  /\ map (fun kv => toJsonLine (fst kv) (snd kv)) es
     = map rawWriteLine (map fst es).
Proof.
  induction es as [ | [key value] es IH ]; simpl.
  - split; reflexivity.
  - intro H. apply andb_true_iff in H as [Hv Hes].
    destruct (IH Hes) as [-> ->].
    destruct value; try discriminate Hv; split; reflexivity.
Qed.

(** C8: for a class all of whose fields are scalars, the deserializer
    assigns, and the serializer writes, the keys of the entries of the
    object, each once and in the order of the entries: the lines of
    [fromJson] are the raw assignments of [map fst es] and the lines of
    [toJson] are the raw writes of the same [map fst es]. *)
Theorem C8_scalar_class_same_keys_in_both_methods :
  forall obj className es,
    Object_entries obj = Some es ->
    forallb (fun kv => isScalar (snd kv)) es = true ->
    generateClassContent obj className
    = Some (fieldsSection es
            ++ constructorSection className (map fst es)
            ++ fromJsonSection className (map rawAssignLine (map fst es))
            ++ toJsonSection (map rawWriteLine (map fst es))).
Proof.
  intros obj className es Hes Hscalar.
  rewrite generateClassContent_sections, Hes. cbn [bind].
  destruct (scalar_lines es Hscalar) as [-> ->]. reflexivity.
Qed.

Lemma C8_scalar_class_same_keys_in_both_methods_witness :
  generateClassContent sample_scalars "MyModel"
  = Some (fieldsSection
            [("a", JNumber num_5); ("b", JString "x"); ("c", JBool true)]
          ++ constructorSection "MyModel" ["a"; "b"; "c"]
          ++ fromJsonSection "MyModel" (map rawAssignLine ["a"; "b"; "c"])
          ++ toJsonSection (map rawWriteLine ["a"; "b"; "c"])).
Proof.
  exact (C8_scalar_class_same_keys_in_both_methods sample_scalars "MyModel"
           [("a", JNumber num_5); ("b", JString "x"); ("c", JBool true)]
           eq_refl eq_refl).
Defined.

(** ** Values on which generation returns *)

Lemma In_flatFields step es c :
  In c (flatFields step es) ->
  exists key value, In (key, value) es /\ In c (step key value).
Proof.
  induction es as [ | [k v] es IH ]; simpl; [ intros [] | ].
  intro H. apply in_app_or in H as [H | H].
  - exists k, v. split; [ left; reflexivity | exact H ].
  - destruct (IH H) as [k' [v' [Hin Hc]]].
    exists k', v'. split; [ right; exact Hin | exact Hc ].
Qed.

Lemma In_indexed {A : Type} (l : list A) i key a :
  In (key, a) (indexed i l) -> In a l.
Proof.
  revert i. induction l as [ | x l IH ]; intro i; simpl; [ intros [] | ].
  intros [E | H].
  - injection E as _ ->. left. reflexivity.
  - right. exact (IH _ H).
Qed.

Lemma nullHeadFree_first first rest :
  nullHeadFree (JArray (first :: rest)) = true ->
  first <> JNull /\ nullHeadFree first = true.
Proof.
  intro H. split.
  - intros ->. discriminate H.
  - destruct first; try reflexivity; try discriminate H;
      cbn [nullHeadFree forallb] in H;
      apply andb_true_iff in H as [H _]; exact H.
Qed.

Lemma collectStep_sources_nonnull lvl key value c :
  (forall v, v = value \/ v = firstOf value ->
     nullHeadFree v = true ->
     forall l c', In c' (collectNested l v) -> sourceObject c' <> JNull) ->
  nullHeadFree value = true ->
  In c (collectStep collectNested lvl key value) ->
  sourceObject c <> JNull.
Proof.
  intros IH Hfree. unfold collectStep.
  destruct (isNestedObject value) eqn:Hobj.
  - intro H. apply in_app_or in H as [H | [<- | []]].
    + exact (IH value (or_introl eq_refl) Hfree _ _ H).
    + cbn. destruct value; discriminate.
  - destruct value as [ | | | | [ | first rest ] | ]; try (intros []).
    destruct (tag_eqb (typeof first) TObject); [ | intros [] ].
    destruct (nullHeadFree_first first rest Hfree) as [Hnn Hf].
    intro H. apply in_app_or in H as [H | [<- | []]].
    + exact (IH first (or_intror eq_refl) Hf _ _ H).
    + exact Hnn.
Qed.

Lemma collectNested_sources_nonnull obj :
  nullHeadFree obj = true ->
  forall lvl c, In c (collectNested lvl obj) -> sourceObject c <> JNull.
Proof.
  induction obj as [ | b | x | s | items IH | fields IH ]
    using JsonValue_nested_ind; intros Hfree lvl c Hin;
    try (destruct Hin).
  - rewrite collectNested_unfold in Hin. cbn [Object_entries] in Hin.
    apply In_flatFields in Hin as [key [value [Hkv Hc]]].
    apply In_indexed in Hkv.
    assert (Hv : nullHeadFree value = true).
    { destruct items as [ | first rest ]; [ destruct Hkv | ].
      assert (Hall : forallb nullHeadFree (first :: rest) = true)
        by (destruct first; try discriminate Hfree; exact Hfree).
      rewrite forallb_forall in Hall. exact (Hall _ Hkv). }
    rewrite Forall_forall in IH. destruct (IH _ Hkv) as [H0 H1].
    apply (collectStep_sources_nonnull lvl key value c); try assumption.
    intros v [-> | ->]; assumption.
  - rewrite collectNested_unfold in Hin. cbn [Object_entries] in Hin.
    apply In_flatFields in Hin as [key [value [Hkv Hc]]].
    assert (Hv : nullHeadFree value = true).
    { cbn [nullHeadFree] in Hfree. rewrite forallb_forall in Hfree.
      exact (Hfree _ Hkv). }
    rewrite Forall_forall in IH. destruct (IH _ Hkv) as [H0 H1].
    apply (collectStep_sources_nonnull lvl key value c); try assumption.
    intros v [-> | ->]; assumption.
Qed.

(** X1: generation returns a text for every parsed value that is not
    [null] and in which no array starts with [null], whatever the class
    name: objects, arrays, strings, numbers and booleans as the root,
    nested to any depth. *)
Theorem X1_generation_returns_without_null_heads :
  forall json className,
    json <> JNull ->
    nullHeadFree json = true ->
    exists out, generateDartClass json className = Some out.
Proof.
  intros json className Hroot Hfree.
  destruct (generateDartClass json className) as [ out | ] eqn:E;
    [ exists out; reflexivity | exfalso ].
  rewrite generateDartClass_texts in E.
  destruct (mapM classText (emittedClasses json className)) as [ ts | ] eqn:M;
    [ discriminate E | ].
  apply mapM_none_iff in M as [c [Hin Hc]].
  apply classText_none_iff in Hc.
  unfold emittedClasses in Hin. apply in_app_or in Hin as [Hin | [<- | []]].
  - exact (collectNested_sources_nonnull json Hfree 1 c Hin Hc).
  - exact (Hroot Hc).
Qed.

Lemma X1_generation_returns_without_null_heads_witness :
  sample_two_branches <> JNull
  /\ nullHeadFree sample_two_branches = true
  /\ exists out, generateDartClass sample_two_branches "Root" = Some out.
Proof.
  assert (Hroot : sample_two_branches <> JNull) by discriminate.
  split; [ exact Hroot | ].
  split; [ reflexivity | ].
  exact (X1_generation_returns_without_null_heads sample_two_branches "Root"
           Hroot eq_refl).
Defined.

(** ** Values without nested classes *)

Lemma forOf_flat rec es :
  forallb (fun kv => isFlatField (snd kv)) es = true ->
  forall acc, forOf (nestedStep rec) acc es = Some acc.
Proof.
  induction es as [ | [key value] es IH ]; intros H acc; [ reflexivity | ].
  cbn [forallb snd] in H. apply andb_true_iff in H as [Hv Hes].
  cbn [forOf]. rewrite nestedStep_source_form.
  unfold isFlatField in Hv. apply andb_true_iff in Hv as [Ho Hl].
  apply negb_true_iff in Ho, Hl. rewrite Ho, Hl.
  cbn [bind]. exact (IH Hes acc).
Qed.

Lemma flat_lines (es : list (string * JsonValue)) :
  forallb (fun kv => isFlatField (snd kv)) es = true ->
  map (fun kv => fromJsonLine (fst kv) (snd kv)) es
  = map rawAssignLine (map fst es)
  /\ map (fun kv => toJsonLine (fst kv) (snd kv)) es
     = map rawWriteLine (map fst es).
Proof.
  induction es as [ | [key value] es IH ]; [ split; reflexivity | ].
  intro H. cbn [forallb snd] in H. apply andb_true_iff in H as [Hv Hes].
  destruct (IH Hes) as [E1 E2]. cbn [map fst snd]. rewrite E1, E2.
  unfold isFlatField in Hv. apply andb_true_iff in Hv as [Ho Hl].
  apply negb_true_iff in Ho, Hl.
  unfold fromJsonLine, toJsonLine. rewrite Ho, Hl. split; reflexivity.
Qed.

(** X2: when no entry of the value is an object or an array that starts
    with an object, an array or null, the collector emits nothing and
    the output is the root class alone, in which every key is read from
    and written to the map as it is.  This is the case of a root that is
    a number or a boolean (no entry), a string (its characters) and an
    array of scalars (its indices), not only of a flat object. *)
Theorem X2_flat_value_gives_the_root_class_alone :
  forall json className es,
    Object_entries json = Some es ->
    forallb (fun kv => isFlatField (snd kv)) es = true ->
    generateNestedClasses json className = Some EmptyString
    /\ emittedClasses json className
       = [ {| specName := className; sourceObject := json; level := 0 |} ]
    /\ generateDartClass json className
       = Some (nl ++ "class " ++ className ++ " {" ++ nl
                 ++ (fieldsSection es
                       ++ constructorSection className (map fst es)
                       ++ fromJsonSection className
                            (map rawAssignLine (map fst es))
                       ++ toJsonSection (map rawWriteLine (map fst es)))
                 ++ "}" ++ nl).
Proof.
  intros json className es Hes Hflat.
  assert (Hn : generateNestedClasses json className = Some EmptyString).
  { rewrite generateNestedClasses_unfold, Hes. cbn [bind].
    apply forOf_flat. exact Hflat. }
  split; [ exact Hn | ].
  split.
  { unfold emittedClasses. rewrite collectNested_unfold, Hes.
    replace (flatFields (collectStep collectNested 1) es) with (@nil ClassSpec);
      [ reflexivity | ].
    clear Hes Hn. induction es as [ | [key value] es IH ]; [ reflexivity | ].
    cbn [forallb snd] in Hflat. apply andb_true_iff in Hflat as [Hv Hes].
    cbn [flatFields]. rewrite <- (IH Hes), app_nil_r.
    unfold isFlatField in Hv. apply andb_true_iff in Hv as [Ho Hl].
    apply negb_true_iff in Ho, Hl. unfold collectStep. rewrite Ho.
    destruct value as [ | | | | [ | first rest ] | ]; try reflexivity.
    unfold isObjectList in Hl. cbn in Hl. rewrite Hl. reflexivity. }
  rewrite generateDartClass_root, Hn. cbn [bind].
  unfold classText. cbn [specName sourceObject].
  rewrite generateClassContent_sections, Hes. cbn [bind].
  destruct (flat_lines es Hflat) as [-> ->]. reflexivity.
Qed.

Lemma X2_flat_value_gives_the_root_class_alone_witness :
  let root := JArray [JNumber num_1; JNumber num_2] in
  let es := [("0", JNumber num_1); ("1", JNumber num_2)] in
  Object_entries root = Some es
  /\ generateNestedClasses root "X" = Some EmptyString
  /\ generateDartClass root "X"
     = Some (nl ++ "class " ++ "X" ++ " {" ++ nl
               ++ (fieldsSection es
                     ++ constructorSection "X" ["0"; "1"]
                     ++ fromJsonSection "X" (map rawAssignLine ["0"; "1"])
                     ++ toJsonSection (map rawWriteLine ["0"; "1"]))
               ++ "}" ++ nl).
Proof.
  intros root es.
  destruct (X2_flat_value_gives_the_root_class_alone root "X" es
              eq_refl eq_refl) as [Hn [_ Hout]].
  split; [ reflexivity | ].
  split; [ exact Hn | exact Hout ].
Defined.

(** ** The range of the type function *)

(** X3: the type of a field is one of twelve texts: a scalar type,
    [dynamic], a list of one of these, the class named by the key, or the
    list of the class named by the key without its trailing [s].  In
    particular it is never a list of lists. *)
Theorem X3_field_type_is_one_of_twelve :
  forall value key,
    In (generateFieldType value key)
       [ "dynamic"; "String"; "int"; "double"; "bool";
         "List<dynamic>"; "List<String>"; "List<int>"; "List<double>";
         "List<bool>";
         "List<" ++ capitalizeFirst (replace_trailing_s key) ++ ">";
         capitalizeFirst key ]
    /\ (forall t, typeOf value key <> ListOf (ListOf t)).
Proof.
  intros value key. split.
  - destruct value as [ | b | x | s | [ | first rest ] | fields ];
      [ | | | | | destruct first as [ | b | x | s | items | fields ] | ];
      cbn [generateFieldType isNull typeof tag_eqb andb negb];
      try destruct (Number_isInteger x);
      cbv [In]; tauto.
  - intros t.
    destruct value as [ | b | x | s | [ | first rest ] | fields ];
      [ | | | | | destruct first as [ | b | x | s | items | fields ] | ];
      cbn [typeOf isNull typeof tag_eqb andb negb];
      try destruct (Number_isInteger x); discriminate.
Qed.

(** ** Only the first element of an array is read *)

Lemma sameFirst_lines key v v' :
  sameFirst v v' ->
  fieldLine key v = fieldLine key v'
  /\ fromJsonLine key v = fromJsonLine key v'
  /\ toJsonLine key v = toJsonLine key v'
  /\ (forall rec acc, nestedStep rec acc key v = nestedStep rec acc key v').
Proof.
  intros [-> | [first [rest [rest' [-> ->]]]]].
  - repeat split.
  - repeat split.
Qed.

Lemma sameFirstFields_sections fields fields' :
  sameFirstFields fields fields' ->
  map fst fields = map fst fields'
  /\ map (fun kv => fieldLine (fst kv) (snd kv)) fields
     = map (fun kv => fieldLine (fst kv) (snd kv)) fields'
  /\ map (fun kv => fromJsonLine (fst kv) (snd kv)) fields
     = map (fun kv => fromJsonLine (fst kv) (snd kv)) fields'
  /\ map (fun kv => toJsonLine (fst kv) (snd kv)) fields
     = map (fun kv => toJsonLine (fst kv) (snd kv)) fields'
  /\ (forall rec acc,
         forOf (nestedStep rec) acc fields
         = forOf (nestedStep rec) acc fields').
Proof.
  induction 1 as [ | [k v] [k' v'] fields fields' [Hk Hv] _ IH ].
  - repeat split.
  - cbn [fst snd] in Hk, Hv. subst k'.
    destruct IH as [E0 [E1 [E2 [E3 E4]]]].
    destruct (sameFirst_lines k v v' Hv) as [L1 [L2 [L3 L4]]].
    cbn [map fst snd forOf]. rewrite E0, E1, E2, E3, L1, L2, L3.
    repeat split. intros rec acc. rewrite L4.
    destruct (nestedStep rec acc k v'); [ apply E4 | reflexivity ].
Qed.

(** X4: the elements of an array after the first are never read.  Two
    objects with the same keys, whose values are equal or are arrays
    with the same first element, give the same output; the elements
    that follow are neither typed nor checked against the first. *)
Theorem X4_array_tails_do_not_matter :
  forall fields fields' className,
    sameFirstFields fields fields' ->
    generateDartClass (JObject fields) className
    = generateDartClass (JObject fields') className.
Proof.
  intros fields fields' className H.
  destruct (sameFirstFields_sections fields fields' H)
    as [E0 [E1 [E2 [E3 E4]]]].
  rewrite !generateDartClass_root, !generateNestedClasses_unfold.
  unfold classText. cbn [specName sourceObject].
  rewrite !generateClassContent_sections. cbn [Object_entries bind].
  unfold fieldsSection. rewrite E0, E1, E2, E3, E4. reflexivity.
Qed.

Lemma X4_array_tails_do_not_matter_witness :
  sameFirstFields
    [("tags", JArray [JString "a"; JString "b"]); ("n", JNumber num_1)]
    [("tags", JArray [JString "a"]); ("n", JNumber num_1)]
  /\ generateDartClass sample_long_list "X"
     = generateDartClass sample_short_list "X".
Proof.
  assert (H : sameFirstFields
                [("tags", JArray [JString "a"; JString "b"]);
                 ("n", JNumber num_1)]
                [("tags", JArray [JString "a"]); ("n", JNumber num_1)]).
  { constructor.
    - split; [ reflexivity | ]. right.
      exists (JString "a"), [JString "b"], []. split; reflexivity.
    - constructor; [ | constructor ].
      split; [ reflexivity | left; reflexivity ]. }
  split; [ exact H | ].
  exact (X4_array_tails_do_not_matter _ _ "X" H).
Defined.

(** ** Class names *)

Lemma replace_trailing_s_app_s key :
  replace_trailing_s (key ++ "s") = key.
Proof.
  induction key as [ | c key IH ]; [ reflexivity | ].
  cbn [append]. destruct key as [ | d key ].
  - reflexivity.
  - cbn [append] in IH |- *. cbn [replace_trailing_s].
    cbn [replace_trailing_s] in IH. rewrite IH. reflexivity.
Qed.

Lemma replace_trailing_s_cases key :
  key = replace_trailing_s key ++ "s" \/ replace_trailing_s key = key.
Proof.
  induction key as [ | c key IH ]; [ right; reflexivity | ].
  destruct key as [ | d key ].
  - cbn [replace_trailing_s]. destruct (Ascii.eqb c "s") eqn:E.
    + left. apply Ascii.eqb_eq in E. subst c. reflexivity.
    + right. reflexivity.
  - change (replace_trailing_s (String c (String d key)))
      with (String c (replace_trailing_s (String d key))).
    destruct IH as [IH | IH].
    + left. cbn [append]. rewrite <- IH. reflexivity.
    + right. rewrite IH. reflexivity.
Qed.

(** X5: the item class of an array field is named by removing at most
    one trailing [s] from the key: a key either ends with [s], which is
    removed, or is kept as it is, and the key [k] followed by [s] gives
    the name of [k].  Hence an array of objects under [k] followed by
    [s] and an object under [k] refer to one and the same class name,
    for which two classes are emitted. *)
Theorem X5_item_class_name_drops_one_trailing_s :
  forall key,
    replace_trailing_s (key ++ "s") = key
    /\ (key = replace_trailing_s key ++ "s" \/ replace_trailing_s key = key)
    /\ (forall fields rest fields',
           typeOf (JArray (JObject fields :: rest)) (key ++ "s")
           = ListOf (typeOf (JObject fields') key))
    /\ (forall fields rest fields',
           map specName
             (emittedClasses
                (JObject [ (key ++ "s", JArray (JObject fields :: rest));
                           (key, JObject fields') ]) "Root")
           = (map specName (collectNested 2 (JObject fields))
                ++ [capitalizeFirst key]
                ++ map specName (collectNested 2 (JObject fields'))
                ++ [capitalizeFirst key; "Root"])%list).
Proof.
  intro key.
  split; [ apply replace_trailing_s_app_s | ].
  split; [ apply replace_trailing_s_cases | ].
  split.
  - intros fields rest fields'.
    cbn [typeOf isNull typeof tag_eqb andb negb].
    rewrite replace_trailing_s_app_s. reflexivity.
  - intros fields rest fields'. unfold emittedClasses.
    cbn [collectNested flatFields].
    unfold collectStep at 1 2.
    cbn [isNestedObject typeof tag_eqb isNull Array_isArray andb negb].
    rewrite replace_trailing_s_app_s, app_nil_r.
    rewrite !map_app. cbn [map specName].
    rewrite <- !app_assoc. reflexivity.
Qed.

(** ** The collector as a homomorphism *)

(** X6: the collector works field by field, from left to right: the
    text for an object whose fields are [fields1] followed by [fields2]
    is the text for [fields1] followed by the text for [fields2], and it
    throws when one of the two does.  A field never influences the
    classes emitted for another field. *)
Theorem X6_collector_distributes_over_fields :
  forall fields1 fields2 className,
    generateNestedClasses (JObject (fields1 ++ fields2)) className
    = (nested1 <- generateNestedClasses (JObject fields1) className ;;
       nested2 <- generateNestedClasses (JObject fields2) className ;;
       Some (nested1 ++ nested2)).
Proof.
  intros fields1 fields2 className.
  rewrite !generateNestedClasses_entries. cbn [Object_entries bind].
  rewrite mapM_app.
  destruct (mapM _ fields1) as [ ts1 | ]; [ | reflexivity ].
  cbn [bind].
  destruct (mapM _ fields2) as [ ts2 | ]; [ | reflexivity ].
  cbn [bind]. rewrite joinTexts_app. reflexivity.
Qed.

(** ** The handlers, event by event *)

(** X7: a conversion is all or nothing, for every input text.  Either
    the text is not blank, it parses, the generator returns, and then
    the output becomes the generated text and the success toast is
    shown; or the output stays what it was and one error toast is
    shown.  The input and the class name are never changed. *)
Theorem X7_conversion_is_all_or_nothing :
  forall (JSON_parse : string -> Throws JsonValue) (st : Component.State),
    let st' := Component.convertJsonToDart JSON_parse st in
    Component.jsonInput st' = Component.jsonInput st
    /\ Component.className st' = Component.className st
    /\ ((exists json out,
            trim_is_empty (Component.jsonInput st) = false
            /\ JSON_parse (Component.jsonInput st) = Some json
            /\ generateDartClass json (Component.className st) = Some out
            /\ Component.dartOutput st' = out
            /\ Component.toasts st'
               = Component.successToast :: Component.toasts st)
        \/ (Component.dartOutput st' = Component.dartOutput st
            /\ exists t,
                 Component.toasts st' = t :: Component.toasts st
                 /\ Component.title t = "Error"
                 /\ Component.variant t = Component.variant_destructive)).
Proof.
  intros JSON_parse st st'. subst st'.
  unfold Component.convertJsonToDart.
  destruct (trim_is_empty (Component.jsonInput st)) eqn:Hblank.
  - cbn. repeat split. right. split; [ reflexivity | ].
    eexists. repeat split.
  - cbn [Component.setIsConverting Component.jsonInput Component.className].
    destruct (JSON_parse (Component.jsonInput st)) as [ json | ] eqn:Hparse.
    + cbn [bind].
      destruct (generateDartClass json (Component.className st))
        as [ out | ] eqn:Hgen.
      * cbn. repeat split. left. exists json, out. repeat split.
        exact Hgen.
      * cbn. repeat split. right. split; [ reflexivity | ].
        eexists. repeat split.
    + cbn. repeat split. right. split; [ reflexivity | ].
      eexists. repeat split.
Qed.

(** X8: a text that parses but on which the generator throws (the text
    [null], or an object with an array that starts with null) is
    answered like a text that does not parse: the toast of the invalid
    JSON format is shown, and the output stays what it was. *)
Theorem X8_generator_failure_is_reported_as_invalid_json :
  forall (JSON_parse : string -> Throws JsonValue) (st : Component.State)
         json,
    trim_is_empty (Component.jsonInput st) = false ->
    JSON_parse (Component.jsonInput st) = Some json ->
    generateDartClass json (Component.className st) = None ->
    let st' := Component.convertJsonToDart JSON_parse st in
    Component.toasts st' = Component.invalidJsonToast :: Component.toasts st
    /\ Component.dartOutput st' = Component.dartOutput st
    /\ Component.isConverting st' = false.
Proof.
  intros JSON_parse st json Hblank Hparse Hgen st'. subst st'.
  unfold Component.convertJsonToDart. rewrite Hblank.
  cbn [Component.setIsConverting Component.jsonInput Component.className].
  rewrite Hparse. cbn [bind]. rewrite Hgen. repeat split.
Qed.

Lemma X8_generator_failure_is_reported_as_invalid_json_witness :
  let st := state_with_input "null" in
  trim_is_empty (Component.jsonInput st) = false
  /\ parse_null_literal (Component.jsonInput st) = Some JNull
  /\ generateDartClass JNull (Component.className st) = None
  /\ Component.toasts (Component.convertJsonToDart parse_null_literal st)
     = [Component.invalidJsonToast]
  /\ Component.dartOutput (Component.convertJsonToDart parse_null_literal st)
     = EmptyString.
Proof.
  intro st.
  destruct (X8_generator_failure_is_reported_as_invalid_json
              parse_null_literal st JNull eq_refl eq_refl eq_refl)
    as [Ht [Ho _]].
  split; [ reflexivity | ].
  split; [ reflexivity | ].
  split; [ reflexivity | ].
  split; [ exact Ht | exact Ho ].
Defined.

(** X9: copying changes none of the four cells of the state and shows
    exactly one toast.  The toast is the one of a successful copy
    exactly when the output is not empty and the clipboard accepted it,
    and the text handed to the clipboard is then the output itself;
    otherwise the clipboard is left as it was. *)
Theorem X9_copy_writes_the_output_or_nothing :
  forall (writeText : string -> string -> Throws string)
         (clipboard : string) (st : Component.State),
    let result := Actions.copyToClipboard writeText clipboard st in
    Component.jsonInput (snd result) = Component.jsonInput st
    /\ Component.className (snd result) = Component.className st
    /\ Component.dartOutput (snd result) = Component.dartOutput st
    /\ Component.isConverting (snd result) = Component.isConverting st
    /\ exists t,
         Component.toasts (snd result) = t :: Component.toasts st
         /\ (t = Actions.copiedToast
             <-> Component.dartOutput st <> EmptyString
                 /\ writeText (Component.dartOutput st) clipboard
                    = Some (fst result))
         /\ (t <> Actions.copiedToast ->
             fst result = clipboard
             /\ Component.title t = "Error"
             /\ Component.variant t = Component.variant_destructive).
Proof.
  intros writeText clipboard st result. subst result.
  unfold Actions.copyToClipboard.
  destruct st as [input name out flag shown].
  cbn [Component.dartOutput].
  destruct out as [ | c out ]; cbn [Actions.not_string].
  - cbn. repeat split. eexists. split; [ reflexivity | ].
    split; [ split | ].
    + discriminate.
    + intros [H _]. exfalso. apply H. reflexivity.
    + intros _. repeat split.
  - destruct (writeText (String c out) clipboard) as [ clipboard' | ].
    + cbn. repeat split.
      eexists. split; [ reflexivity | ].
      split; [ split | ].
      * intros _. split; [ discriminate | reflexivity ].
      * reflexivity.
      * intro H. exfalso. apply H. reflexivity.
    + cbn. repeat split.
      eexists. split; [ reflexivity | ].
      split; [ split | ].
      * discriminate.
      * intros [_ H]. discriminate H.
      * intros _. repeat split.
Qed.

(** X10: clearing resets the input, the output and the class name to
    the values of the first render and keeps the toasts and the flag;
    clearing twice is clearing once.  After a clear, a conversion
    answers with the toast of the empty input without consulting the
    parser, and a copy answers with the toast of the missing code
    without touching the clipboard. *)
Theorem X10_clear_resets_the_three_texts :
  forall (JSON_parse : string -> Throws JsonValue)
         (writeText : string -> string -> Throws string)
         (clipboard : string) (st : Component.State),
    Component.jsonInput (Actions.clearAll st) = EmptyString
    /\ Component.dartOutput (Actions.clearAll st) = EmptyString
    /\ Component.className (Actions.clearAll st) = "MyModel"
    /\ Component.isConverting (Actions.clearAll st)
       = Component.isConverting st
    /\ Component.toasts (Actions.clearAll st) = Component.toasts st
    /\ Actions.clearAll (Actions.clearAll st) = Actions.clearAll st
    /\ Component.convertJsonToDart JSON_parse (Actions.clearAll st)
       = Component.toast Component.emptyInputToast (Actions.clearAll st)
    /\ Actions.copyToClipboard writeText clipboard (Actions.clearAll st)
       = (clipboard, Component.toast Actions.noCodeToast (Actions.clearAll st)).
Proof.
  intros JSON_parse writeText clipboard st. repeat split.
Qed.

(** ** Sessions *)

Lemma session_snoc JSON_parse writeText clipboard events e :
  Actions.session JSON_parse writeText clipboard (events ++ [e])
  = Actions.handle JSON_parse writeText
      (Actions.session JSON_parse writeText clipboard events) e.
Proof. unfold Actions.session. rewrite fold_left_app. reflexivity. Qed.

(** X11: whatever the user does, from the first render on, with any
    parser and any clipboard: once an event is handled the conversion
    flag is off, so the convert button is never left disabled; and the
    output on display is empty or is the complete text the generator
    returned for some parsed value and class name, never a part of it
    and never a text of another origin. *)
Theorem X11_session_invariant :
  forall (JSON_parse : string -> Throws JsonValue)
         (writeText : string -> string -> Throws string)
         (clipboard : string) (events : list Actions.Event),
    let st := snd (Actions.session JSON_parse writeText clipboard events) in
    Component.isConverting st = false
    /\ (Component.dartOutput st = EmptyString
        \/ exists json className,
             generateDartClass json className
             = Some (Component.dartOutput st)).
Proof.
  intros JSON_parse writeText clipboard events.
  induction events as [ | e events IH ] using rev_ind.
  - split; [ reflexivity | left; reflexivity ].
  - rewrite session_snoc.
    destruct (Actions.session JSON_parse writeText clipboard events)
      as [clip st].
    cbn [snd] in IH. destruct IH as [Hflag Hout].
    destruct e as [ value | value | | | ]; cbn [Actions.handle snd].
    + split; assumption.
    + split; assumption.
    + unfold Component.convertJsonToDart.
      destruct (trim_is_empty (Component.jsonInput st));
        [ split; assumption | ].
      cbn [Component.setIsConverting Component.jsonInput
           Component.className].
      destruct (JSON_parse (Component.jsonInput st)) as [ json | ];
        [ | split; [ reflexivity | exact Hout ] ].
      cbn [bind].
      destruct (generateDartClass json (Component.className st))
        as [ out | ] eqn:Hgen;
        [ | split; [ reflexivity | exact Hout ] ].
      split; [ reflexivity | ].
      right. exists json, (Component.className st). exact Hgen.
    + split; [ exact Hflag | left; reflexivity ].
    + unfold Actions.copyToClipboard.
      destruct (Actions.not_string (Component.dartOutput st));
        [ split; assumption | ].
      destruct (writeText (Component.dartOutput st) clip);
        split; assumption.
Qed.

(** ** The capitalizer *)

Lemma upper_char_idempotent c : upper_char (upper_char c) = upper_char c.
Proof. destruct c as [[] [] [] [] [] [] [] []]; reflexivity. Qed.

(** X12: on ASCII text the capitalizer changes the first character at
    most: the length and the rest of the text are kept, and applying it
    twice is applying it once, so that a key and its capitalized form
    name the same class. *)
Theorem X12_capitalizeFirst_touches_the_first_character_only :
  forall str,
    isAsciiText str = true ->
    String.length (capitalizeFirst str) = String.length str
    /\ slice1 (capitalizeFirst str) = slice1 str
    /\ capitalizeFirst (capitalizeFirst str) = capitalizeFirst str
    /\ (forall fields fields',
           typeOf (JObject fields) (capitalizeFirst str)
           = typeOf (JObject fields') str).
Proof.
  intros str _. destruct str as [ | c rest ].
  - repeat split.
  - unfold capitalizeFirst.
    cbn [charAt0 slice1 toUpperCase append String.length].
    split; [ reflexivity | ].
    split; [ reflexivity | ].
    assert (E : String (upper_char (upper_char c)) rest
                = String (upper_char c) rest)
      by (rewrite upper_char_idempotent; reflexivity).
    split; [ exact E | ].
    intros fields fields'.
    cbn [typeOf isNull typeof tag_eqb]. unfold capitalizeFirst.
    cbn [charAt0 slice1 toUpperCase append]. rewrite E. reflexivity.
Qed.

Lemma X12_capitalizeFirst_touches_the_first_character_only_witness :
  isAsciiText "address" = true
  /\ capitalizeFirst "address" = "Address"
  /\ capitalizeFirst (capitalizeFirst "address") = capitalizeFirst "address".
Proof.
  destruct (X12_capitalizeFirst_touches_the_first_character_only "address"
              eq_refl) as [_ [_ [H _]]].
  split; [ reflexivity | ].
  split; [ reflexivity | exact H ].
Defined.

(** ** The type of a field and its lines *)

(** X13: but for an array that starts with null, the declared type of a
    field decides its lines in [fromJson] and [toJson]: a field of class
    type is read through the [fromJson] of that very class and written
    through [toJson]; a field whose type is a list of a class is mapped
    through the [fromJson] of that class and through [toJson]; every
    other field is read and written as it is. *)
Theorem X13_declared_type_decides_the_lines :
  forall key value,
    (forall rest, value <> JArray (JNull :: rest)) ->
    fromJsonLine key value
    = match typeOf value key with
      | NamedClass name => classAssignLine key name
      | ListOf (NamedClass name) => listAssignLine key name
      | _ => rawAssignLine key
      end
    /\ toJsonLine key value
       = match typeOf value key with
         | NamedClass _ => classWriteLine key
         | ListOf (NamedClass _) => listWriteLine key
         | _ => rawWriteLine key
         end
    /\ generateFieldType value key = renderType (typeOf value key).
Proof.
  intros key value Hnull.
  split; [ | split; [ | apply generateFieldType_render ] ].
  - destruct value as [ | b | x | s | [ | first rest ] | fields ];
      try reflexivity.
    + cbn [typeOf isNull typeof tag_eqb].
      destruct (Number_isInteger x); reflexivity.
    + destruct first as [ | b | x | s | items | fields ]; try reflexivity.
      * exfalso. exact (Hnull rest eq_refl).
      * cbn [typeOf isNull typeof tag_eqb andb negb].
        destruct (Number_isInteger x); reflexivity.
  - destruct value as [ | b | x | s | [ | first rest ] | fields ];
      try reflexivity.
    + cbn [typeOf isNull typeof tag_eqb].
      destruct (Number_isInteger x); reflexivity.
    + destruct first as [ | b | x | s | items | fields ]; try reflexivity.
      * exfalso. exact (Hnull rest eq_refl).
      * cbn [typeOf isNull typeof tag_eqb andb negb].
        destruct (Number_isInteger x); reflexivity.
Qed.

Lemma X13_declared_type_decides_the_lines_witness :
  let value := JArray [JObject [("b", JNumber num_1)]] in
  (forall rest, value <> JArray (JNull :: rest))
  /\ typeOf value "items" = ListOf (NamedClass "Item")
  /\ fromJsonLine "items" value = listAssignLine "items" "Item"
  /\ toJsonLine "items" value = listWriteLine "items".
Proof.
  intro value.
  assert (H : forall rest, value <> JArray (JNull :: rest))
    by (intros rest E; discriminate E).
  destruct (X13_declared_type_decides_the_lines "items" value H)
    as [Hfrom [Hto _]].
  split; [ exact H | ].
  split; [ reflexivity | ].
  split; [ exact Hfrom | exact Hto ].
Defined.
